(** * URL journey: redirect-chain walker, server fingerprinting, batch orchestrator

    A shallow embedding of [main.py] and the properties of its four parts:
    the IP oracle ([resolve_ip_async], [is_akamai_ip]), the server
    classifier ([get_server_name_advanced]), the redirect walker
    ([check_url_status]) and the batch endpoint ([websocket_endpoint]).

    Conventions of the embedding.
    - Python [str] is [string].  Text is read as ASCII: the case maps,
      [isspace] and the line boundaries below are Python's on the code
      points 0..127, and a character above 127 is kept as it is and is
      neither a space nor a line boundary.
    - A Python [dict] that is only read by key is a [gmap string string];
      a dict received from outside is the list of its items in iteration
      order.
    - The network and the name service are oracles that a run receives as
      arguments; the process-wide [ip_cache] and the log of the lookups
      that were really performed are threaded through as a [World].
    - Exceptions are values of [exn]; the [try]/[except] of the walker is a
      match on them. *)

From Stdlib Require Import ZArith Lia Ascii.
From stdpp Require Import base strings list gmap pretty.

Local Open Scope string_scope.
Local Open Scope list_scope.

(** ** Python built-ins used by the program *)

Module Py.

Definition ord (c : ascii) : nat := nat_of_ascii c.

Definition between (lo hi : nat) (c : ascii) : bool :=
  (lo <=? ord c)%nat && (ord c <=? hi)%nat.

Definition is_upper (c : ascii) : bool := between 65 90 c.
Definition is_lower (c : ascii) : bool := between 97 122 c.
Definition is_digit (c : ascii) : bool := between 48 57 c.

Definition lower_char (c : ascii) : ascii :=
  if is_upper c then ascii_of_nat (ord c + 32) else c.

Definition upper_char (c : ascii) : ascii :=
  if is_lower c then ascii_of_nat (ord c - 32) else c.

(** [s.lower()] *)
Fixpoint lower (s : string) : string :=
  match s with
  | EmptyString => EmptyString
  | String c s' => String (lower_char c) (lower s')
  end.

(** [s.capitalize()]: first character upper-cased, the others lower-cased. *)
Definition capitalize (s : string) : string :=
  match s with
  | EmptyString => EmptyString
  | String c s' => String (upper_char c) (lower s')
  end.

(** [bool(s)] for a string. *)
Definition truthy (s : string) : bool :=
  match s with EmptyString => false | String _ _ => true end.

(** [s.startswith(p)] *)
Definition startswith (p s : string) : bool := String.prefix p s.

(** [sub in s] *)
Fixpoint contains (sub s : string) : bool :=
  String.prefix sub s ||
  match s with
  | EmptyString => false
  | String _ s' => contains sub s'
  end.

(** [c.isspace()] on ASCII: tab, LF, VT, FF, CR, FS, GS, RS, US, space. *)
Definition isspace (c : ascii) : bool :=
  between 9 13 c || between 28 31 c || (ord c =? 32)%nat.

(** Line boundaries of [str.splitlines] on ASCII: LF, VT, FF, CR, FS, GS, RS. *)
Definition is_linebreak (c : ascii) : bool :=
  between 10 13 c || between 28 30 c.

Fixpoint lstrip (s : string) : string :=
  match s with
  | EmptyString => EmptyString
  | String c s' => if isspace c then lstrip s' else s
  end.

(** The text without its trailing white space: a character is kept when
    it is not a space or something is kept after it. *)
Fixpoint rstrip (s : string) : string :=
  match s with
  | EmptyString => EmptyString
  | String c s' =>
      match rstrip s' with
      | EmptyString => if isspace c then EmptyString else String c EmptyString
      | r => String c r
      end
  end.

(** [s.strip()] *)
Definition strip (s : string) : string := rstrip (lstrip s).

(** [s.splitlines()]: [line] holds the characters of the line being read.
    A boundary ends the line (CR LF counts once); text after the last
    boundary is a line only when it is not empty. *)
Fixpoint splitlines_from (line s : string) : list string :=
  match s with
  | EmptyString => if truthy line then [line] else []
  | String c s' =>
      if is_linebreak c then
        match s' with
        | String c' s'' =>
            if (ord c =? 13)%nat && (ord c' =? 10)%nat
            then line :: splitlines_from EmptyString s''
            else line :: splitlines_from EmptyString s'
        | EmptyString => line :: splitlines_from EmptyString s'
        end
      else splitlines_from (line +:+ String c EmptyString) s'
  end.

Definition splitlines (s : string) : list string := splitlines_from EmptyString s.

(** [s.split(sep)] for a one-character separator. *)
Fixpoint split_from (sep : ascii) (part s : string) : list string :=
  match s with
  | EmptyString => [part]
  | String c s' =>
      if Ascii.eqb c sep then part :: split_from sep EmptyString s'
      else split_from sep (part +:+ String c EmptyString) s'
  end.

Definition split (sep : ascii) (s : string) : list string :=
  split_from sep EmptyString s.

(** [int(s, 10)] for a string of ASCII digits. *)
Definition int_of_digits (s : string) : Z :=
  fold_left (λ acc c, acc * 10 + Z.of_nat (ord c - 48))%Z (String.list_ascii_of_string s) 0%Z.

(** [list(dict.fromkeys(l))]: one entry per key, in first-seen order. *)
Definition fromkeys (l : list string) : list string :=
  fold_left (λ seen k, if bool_decide (k ∈ seen) then seen else seen ++ [k]) l [].

(** The line feed. *)
Definition LF : ascii := "010"%char.

(** [sep.join(l)] *)
Fixpoint join (sep : string) (l : list string) : string :=
  match l with
  | [] => EmptyString
  | [x] => x
  | x :: l' => x +:+ sep +:+ join sep l'
  end.

End Py.

(** ** IP range oracle *)

(** [ipaddress]: the dotted quad of an IPv4 address as a 32-bit number.
    An octet is one to three ASCII digits, at most 255, without a leading
    zero.  ([ipaddress.ip_address] also reads IPv6 literals; no IPv6
    address is a member of an IPv4 network, so [is_akamai_ip] is [False]
    for them exactly as for a text that is no address at all.) *)
Module ipaddress.

Definition parse_octet (s : string) : option Z :=
  if negb (Py.truthy s) then None
  else if negb (forallb Py.is_digit (String.list_ascii_of_string s)) then None
  else if (3 <? String.length s)%nat then None
  else if negb (String.eqb s "0") && Py.startswith "0" s then None
  else
    let n := Py.int_of_digits s in
    if (255 <? n)%Z then None else Some n.

Definition ipv4_address (s : string) : option Z :=
  match Py.split "." s with
  | [a; b; c; d] =>
      a ← parse_octet a; b ← parse_octet b; c ← parse_octet c; d ← parse_octet d;
      Some (((a * 256 + b) * 256 + c) * 256 + d)%Z
  | _ => None
  end.

(** [ip_network(cidr)] for [a.b.c.d/len]: network address and prefix length. *)
Definition ip_network (cidr : string) : option (Z * Z) :=
  match Py.split "/" cidr with
  | [a; len] =>
      a ← ipv4_address a;
      if forallb Py.is_digit (String.list_ascii_of_string len) && Py.truthy len
      then Some (a, Py.int_of_digits len) else None
  | _ => None
  end.

(** [addr in network] *)
Definition in_network (addr : Z) (net : Z * Z) : bool :=
  (Z.shiftr addr (32 - net.2) =? Z.shiftr net.1 (32 - net.2))%Z.

End ipaddress.

Definition AKAMAI_IP_RANGES : list string :=
  ["23.192.0.0/11"; "104.64.0.0/10"; "184.24.0.0/13"].

(** What [socket.gethostbyname] does for a host name: it returns the
    address, or raises one of the two exceptions [resolve_ip_async]
    provides for, [gaierror] and [TypeError].  An exception of another
    class is not caught: the runs in which the lookup raises one are
    followed in [Raising] below. *)
Inductive lookup := Resolved (ip : string) | Gaierror | Typeerror.

(** The name service as one run sees it. *)
Definition resolver := string → lookup.

Record World := mkWorld {
  ip_cache : gmap string string;   (* the module-level [ip_cache] *)
  lookups : list string            (* host names passed to [gethostbyname], oldest first *)
}.

Definition resolve_ip_async (dns : resolver) (hostname : option string) (w : World)
  : option string * World :=
  match hostname with
  | None => (None, w)
  | Some h =>
      if negb (Py.truthy h) then (None, w)
      else
        match ip_cache w !! h with
        | Some ip => (Some ip, w)
        | None =>
            match dns h with
            | Resolved ip => (Some ip, mkWorld (<[h := ip]> (ip_cache w)) (lookups w ++ [h]))
            | Gaierror | Typeerror => (None, mkWorld (ip_cache w) (lookups w ++ [h]))
            end
        end
  end.

Definition is_akamai_ip (ip : option string) : bool :=
  match ip with
  | None => false
  | Some ip =>
      if negb (Py.truthy ip) then false
      else
        match ipaddress.ipv4_address ip with
        | None => false
        | Some addr =>
            existsb (λ cidr, match ipaddress.ip_network cidr with
                             | Some net => ipaddress.in_network addr net
                             | None => false
                             end) AKAMAI_IP_RANGES
        end
  end.

(** ** The HTTP client, as the program uses it *)

(** [httpx], in the releases that have the [follow_redirects] keyword the
    program passes (0.20 and later).  A response shows its effective URL,
    its status code and its headers.  In these releases [is_redirect] is
    true on every 3xx code, with or without a [Location] header, and
    [raise_for_status] raises [HTTPStatusError] on every code outside 2xx.
    Header names are looked up without regard to case. *)
Module httpx.

Record Response := mkResponse {
  url : string;
  status_code : Z;
  headers : list (string * string)   (* [headers.items()] *)
}.

Definition is_redirect (r : Response) : bool :=
  (300 <=? status_code r)%Z && (status_code r <=? 399)%Z.

Definition is_success (r : Response) : bool :=
  (200 <=? status_code r)%Z && (status_code r <=? 299)%Z.

End httpx.

(** The exceptions the walker tells apart, in the order of its
    [isinstance] tests.  [RequestError] stands for the request errors that
    are not timeouts, and [Exception msg] for an exception of any other
    class whose [str] is [msg]. *)
Inductive exn :=
| TimeoutException (msg : string)
| HTTPStatusError (response : httpx.Response)
| RequestError (msg : string)
| Exception (msg : string).

(** [{k.lower(): v for k, v in headers.items()}]: a later item replaces an
    earlier one with the same lower-cased name. *)
Definition lower_keys (headers : list (string * string)) : gmap string string :=
  fold_left (λ acc kv, <[Py.lower kv.1 := kv.2]> acc) headers ∅.

(** [d.get(k, "")] *)
Definition get_or_empty (d : gmap string string) (k : string) : string :=
  default EmptyString (d !! k).

(** [k in d] *)
Definition has_key (d : gmap string string) (k : string) : bool :=
  bool_decide (is_Some (d !! k)).

(** [response.raise_for_status()]: the exception raised, if any. *)
Definition raise_for_status (r : httpx.Response) : option exn :=
  if httpx.is_success r then None else Some (HTTPStatusError r).

(** What [client.get] does for one request. *)
Inductive reply := Responds (response : httpx.Response) | Raises (e : exn).

(** One entry of [redirect_chain]. *)
Module Hop.
Record t := mk { url : string; status : Z; serverName : string }.
End Hop.

(** The [status] of a result: a code, [None], or the text ["Error"]. *)
Inductive status_value := Code (n : Z) | NoStatus | ErrorText.

(** The dict [check_url_status] returns. *)
Module UrlResult.
Record t := mk {
  url : string;
  status : status_value;
  comment : string;
  serverName : string;
  redirectChain : list Hop.t
}.
End UrlResult.

Definition MAX_REDIRECTS : nat := 15.

Section Program.

(** [urlparse(url).hostname] and [urljoin(base, target)] of
    [urllib.parse], taken as they are, on the URLs they accept; the runs
    in which [urlparse] raises are followed in [Raising] below. *)
Variable urlparse_hostname : string → option string.
Variable urljoin : string → string → string.

(** The name service during the run. *)
Variable dns : resolver.

(** ** Server fingerprint classifier *)

(** [hostname and ("bmw" in hostname.lower() or "mini" in hostname.lower())] *)
Definition bmw_or_mini (hostname : option string) : bool :=
  match hostname with
  | Some h => Py.truthy h &&
              (Py.contains "bmw" (Py.lower h) || Py.contains "mini" (Py.lower h))
  | None => false
  end.

Definition get_server_name_advanced (headers : list (string * string)) (url : string)
    (w : World) : string * World :=
  let headers := lower_keys headers in
  let hostname := urlparse_hostname url in
  if bmw_or_mini hostname && has_key headers "cache-control"
  then ("Apache (AEM)", w)
  else
    let server_value := Py.lower (get_or_empty headers "server") in
    if Py.truthy server_value then
      if Py.contains "akamai" server_value || Py.contains "ghost" server_value
      then ("Akamai", w)
      else if Py.contains "apache" server_value then ("Apache (AEM)", w)
      else (Py.capitalize server_value, w)
    else
      let server_timing := get_or_empty headers "server-timing" in
      let has_akamai_cache :=
        Py.contains "cdn-cache; desc=HIT" server_timing ||
        Py.contains "cdn-cache; desc=MISS" server_timing in
      let has_akamai_request_id := has_key headers "x-akamai-request-id" in
      let has_dispatcher := has_key headers "x-dispatcher" || has_key headers "x-aem-instance" in
      let has_aem_paths :=
        existsb (λ hv, bool_decide (hv.1 ∈ ["link"; "baqend-tags"]) &&
                       Py.contains "/etc.clientlibs" hv.2)
                (map_to_list headers) in
      let '(ip, w) := resolve_ip_async dns hostname w in
      let is_akamai := is_akamai_ip ip in
      if has_akamai_cache || has_akamai_request_id || (Py.truthy server_timing && is_akamai)
      then
        if has_aem_paths || has_dispatcher then ("Apache (AEM)", w) else ("Akamai", w)
      else if has_dispatcher || has_aem_paths then ("Apache (AEM)", w)
      else if is_akamai then ("Akamai", w)
      else ("Unknown", w).

(** ** Redirect-chain walker *)

(** The server side of one walk: what the request number [i] (from 0) of
    the walk, sent to a URL, is answered with. *)
Variable net : nat → string → reply.

(** [response.headers.get('location')] *)
Definition location (r : httpx.Response) : option string :=
  lower_keys (httpx.headers r) !! "location".

(** The [for _ in range(MAX_REDIRECTS)] loop with [n] rounds left: the
    exception that ended it (if one did), the chain and the world.  The
    chain is extended before any test on the response, and an exception
    leaves it as it is at that point. *)
Fixpoint hops (n i : nat) (current_url : string) (redirect_chain : list Hop.t) (w : World)
  : option exn * list Hop.t * World :=
  match n with
  | O => (None, redirect_chain, w)
  | S n' =>
      match net i current_url with
      | Raises e => (Some e, redirect_chain, w)
      | Responds response =>
          let '(server_name, w) :=
            get_server_name_advanced (httpx.headers response) (httpx.url response) w in
          let hop_info :=
            Hop.mk (httpx.url response) (httpx.status_code response) server_name in
          let redirect_chain := redirect_chain ++ [hop_info] in
          if httpx.is_redirect response then
            match location response with
            | Some target_url =>
                if Py.truthy target_url then
                  let next_url := urljoin (httpx.url response) target_url in
                  if String.eqb next_url current_url
                  then (Some (Exception "URL redirects to itself in a loop"), redirect_chain, w)
                  else hops n' (S i) next_url redirect_chain w
                else (Some (Exception "Redirect missing location header"), redirect_chain, w)
            | None => (Some (Exception "Redirect missing location header"), redirect_chain, w)
            end
          else (raise_for_status response, redirect_chain, w)
      end
  end.

(** The body of the [try]: the loop, then the test on the length of the
    chain. *)
Definition try_body (url : string) (w : World) : option exn * list Hop.t * World :=
  let '(raised, redirect_chain, w) := hops MAX_REDIRECTS 0 url [] w in
  match raised with
  | Some e => (Some e, redirect_chain, w)
  | None =>
      if (MAX_REDIRECTS <=? length redirect_chain)%nat
      then (Some (Exception "Too many redirects"), redirect_chain, w)
      else (None, redirect_chain, w)
  end.

Definition first_status (redirect_chain : list Hop.t) (otherwise : status_value) : status_value :=
  match redirect_chain with
  | h :: _ => Code (Hop.status h)
  | [] => otherwise
  end.

Definition first_serverName (redirect_chain : list Hop.t) : string :=
  match redirect_chain with
  | h :: _ => Hop.serverName h
  | [] => "N/A"
  end.

(** The [return] of the [try]. *)
Definition success (url : string) (redirect_chain : list Hop.t) : UrlResult.t :=
  UrlResult.mk url
    (first_status redirect_chain NoStatus)
    (if (1 <? length redirect_chain)%nat then "Redirect Chain" else "OK")
    (first_serverName redirect_chain)
    redirect_chain.

(** The [except Exception as e] handler. *)
Definition handler (url : string) (e : exn) (redirect_chain : list Hop.t) : UrlResult.t :=
  let '(comment, redirect_chain) :=
    match e with
    | TimeoutException _ => ("Request timed out after 60s", redirect_chain)
    | HTTPStatusError r =>
        ("HTTP Error: " +:+ pretty (httpx.status_code r),
         redirect_chain ++ [Hop.mk (httpx.url r) (httpx.status_code r) "N/A"])
    | RequestError _ => ("Request failed (Network/DNS error)", redirect_chain)
    | Exception msg => (msg, redirect_chain)
    end in
  UrlResult.mk url
    (first_status redirect_chain ErrorText)
    comment
    (first_serverName redirect_chain)
    redirect_chain.

Definition check_url_status (url : string) (w : World) : UrlResult.t * World :=
  let '(raised, redirect_chain, w) := try_body url w in
  match raised with
  | None => (success url redirect_chain, w)
  | Some e => (handler url e redirect_chain, w)
  end.

(** *** The path of a walk

    [redirected url w0 k u chain w]: the walk of [url] started in world
    [w0] has received [k] responses, each a redirect with a non-empty
    [Location] that leads to another URL than the one requested, and is
    about to send request number [k] to [u], with [chain] recorded and
    the world [w]. *)
Inductive redirected (url : string) (w0 : World)
  : nat → string → list Hop.t → World → Prop :=
| redirected_0 : redirected url w0 0 url [] w0
| redirected_S k u chain w r target :
    redirected url w0 k u chain w →
    net k u = Responds r →
    httpx.is_redirect r = true →
    location r = Some target →
    target ≠ EmptyString →
    urljoin (httpx.url r) target ≠ u →
    redirected url w0 (S k) (urljoin (httpx.url r) target)
      (chain ++ [Hop.mk (httpx.url r) (httpx.status_code r)
                   (get_server_name_advanced (httpx.headers r) (httpx.url r) w).1])
      (get_server_name_advanced (httpx.headers r) (httpx.url r) w).2.

(** The same path, computed: [None] when one of the first [k] requests
    is not answered by such a redirect. *)
Fixpoint follow (k : nat) (url : string) (w0 : World)
  : option (string * list Hop.t * World) :=
  match k with
  | O => Some (url, [], w0)
  | S k' =>
      match follow k' url w0 with
      | Some (u, chain, w) =>
          match net k' u with
          | Responds r =>
              match location r with
              | Some target =>
                  if httpx.is_redirect r && Py.truthy target &&
                     negb (String.eqb (urljoin (httpx.url r) target) u)
                  then
                    let c := get_server_name_advanced (httpx.headers r) (httpx.url r) w in
                    Some (urljoin (httpx.url r) target,
                          chain ++ [Hop.mk (httpx.url r) (httpx.status_code r) c.1],
                          c.2)
                  else None
              | None => None
              end
          | Raises _ => None
          end
      | None => None
      end
  end.

End Program.

(** ** Batch orchestrator *)

(** [list(dict.fromkeys(u.strip() for u in urls if u.strip()))] *)
Definition cleaned_urls (urls : list string) : list string :=
  Py.fromkeys (List.filter Py.truthy (map Py.strip urls)).

(** The scheme given to an entry that has none. *)
Definition with_scheme (url : string) : string :=
  if negb (Py.startswith "http://" url || Py.startswith "https://" url)
  then "https://" +:+ url else url.

Definition CONCURRENCY_LIMIT : nat := 25.

(** A task [bound_check(url, client)]: its URL, and whether it sleeps 0.1 s
    before its walk ([should_throttle], which the closure captures). *)
Record Task := mkTask { task_url : string; sleeps : bool }.

(** What the endpoint sends: a result, or [{"status": "done"}]. *)
Inductive message := Result (r : UrlResult.t) | Done.

(** [should_throttle] of a message. *)
Definition should_throttle (data : string) : bool :=
  (50 <? length (Py.splitlines data))%nat.

(** The tasks created for a message, in creation order. *)
Definition tasks (data : string) : list Task :=
  map (λ url, mkTask (with_scheme url) (should_throttle data))
      (cleaned_urls (Py.splitlines data)).

Section Endpoint.

(** The scheduler and the client side of one session: which of the
    pending tasks completes next, what the task created as number [i]
    completes with, and whether the socket is in state CONNECTED at the
    [k]-th test of it.  The walks run interleaved; the endpoint only sees
    their results, so these are taken as given.  The sessions modelled are
    those in which [receive_text] and every [send_json] return. *)
Variable pick : nat → nat.
Variable result_of : nat → Task → UrlResult.t.
Variable connected : nat → bool.

(** [asyncio.as_completed]: the pending tasks in completion order. *)
Fixpoint as_completed {A} (n : nat) (pending : list A) : list A :=
  match n with
  | O => []
  | S n' =>
      let i := (pick n' mod length pending)%nat in
      match pending !! i with
      | Some t => t :: as_completed n' (delete i pending)
      | None => []
      end
  end.

(** The loop over the completed tasks: a result is sent when the socket
    is connected at that moment. *)
Fixpoint send_results (k : nat) (results : list UrlResult.t) : list message :=
  match results with
  | [] => []
  | r :: rest =>
      (if connected k then [Result r] else []) ++ send_results (S k) rest
  end.

(** The messages sent during one session that received [data]. *)
Definition websocket_endpoint (data : string) : list message :=
  let numbered := imap (λ i t, (i, t)) (tasks data) in
  let results :=
    map (λ it, result_of it.1 it.2) (as_completed (length numbered) numbered) in
  send_results 0 results ++
  (if connected (length results) then [Done] else []).

End Endpoint.

(** ** Notions used to state the properties *)

(** An entry of a message as a caller writes it on one line: not empty and
    free of line boundaries. *)
Definition plain (u : string) : bool :=
  Py.truthy u && forallb (λ c, negb (Py.is_linebreak c)) (String.list_ascii_of_string u).

(** A line that is empty or holds white space only. *)
Definition blank (line : string) : bool :=
  forallb Py.isspace (String.list_ascii_of_string line).

(** A header value with its first character capitalized and the other
    characters kept as received. *)
Definition first_capitalized_rest_kept (s : string) : string :=
  match s with
  | EmptyString => EmptyString
  | String c rest => String (Py.upper_char c) rest
  end.

(** ** Concrete servers and messages used in the examples *)

Module Scenario.

(** [urlparse(url).hostname] on URLs of the plain form
    [scheme://host/path]: the text between [://] and the next [/],
    lower-cased. *)
Fixpoint until_slash (s : string) : string :=
  match s with
  | EmptyString => EmptyString
  | String c s' => if Ascii.eqb c "/" then EmptyString else String c (until_slash s')
  end.

Fixpoint after_scheme (s : string) : option string :=
  match s with
  | EmptyString => None
  | String _ s' =>
      if String.prefix "://" s
      then Some (until_slash (String.substring 3 (String.length s) s))
      else after_scheme s'
  end.

Definition hostname (url : string) : option string :=
  match after_scheme url with
  | Some h => if Py.truthy h then Some (Py.lower h) else None
  | None => None
  end.

(** [urljoin(base, target)] when [target] is an absolute URL. *)
Definition absolute (base target : string) : string := target.

(** A name service that knows no host. *)
Definition no_dns : resolver := λ _, Gaierror.

Definition empty_world : World := mkWorld ∅ [].

Definition page (i : nat) : string := "https://example.test/" +:+ pretty i.

(** A server that answers the first [n] requests of a walk with a
    redirect to the next page and every later one with [final]. *)
Definition redirects_then (n : nat) (final : Z) : nat → string → reply :=
  λ i u,
    if (i <? n)%nat
    then Responds (httpx.mkResponse u 301 [("Location", page (S i)); ("Server", "nginx")])
    else Responds (httpx.mkResponse u final [("Server", "nginx")]).


(** A client that fails on the first request with an exception of a
    class the walker does not name. *)
Definition invalid_url : nat → string → reply :=
  λ i u, Raises (Exception "Invalid non-printable ASCII character in URL").

(** An entry with a tab inside, as the endpoint passes it on. *)
Definition tab_url : string := "https://exam" +:+ String "009"%char "ple.test".

Definition walk (net : nat → string → reply) (url : string) : UrlResult.t :=
  (check_url_status hostname absolute no_dns net url empty_world).1.

(** [n] lines, each holding [line]. *)
Definition lines (n : nat) (line : string) : string :=
  Py.join (String Py.LF EmptyString) (replicate n line).

(** The [n] distinct entries [host0.test], [host1.test], ... *)
Definition distinct (n : nat) : list string :=
  map (λ i : nat, "host" +:+ pretty i +:+ ".test") (seq 0 n).

End Scenario.

(** ** Further notions and servers *)

(** A hop that was answered with a 3xx status. *)
Definition redirect_hop (h : Hop.t) : Prop := (300 ≤ Hop.status h ≤ 399)%Z.

(** The dotted quad of four octets, in decimal. *)
Definition dotted (a b c d : Z) : string :=
  pretty a +:+ "." +:+ pretty b +:+ "." +:+ pretty c +:+ "." +:+ pretty d.

(** A text that does not hold the separator. *)
Definition free_of (sep : ascii) (s : string) : bool :=
  forallb (λ c, negb (Ascii.eqb c sep)) (String.list_ascii_of_string s).

(** An octet whose decimal form is read back and holds no dot. *)
Definition octet_ok (n : Z) : bool :=
  bool_decide (ipaddress.parse_octet (pretty n) = Some n) && free_of "." (pretty n).

(** An entry as the endpoint keeps it: plain, and unchanged by [strip]. *)
Definition clean (u : string) : bool :=
  plain u && bool_decide (Py.strip u = u).

Module Cases.



(** A server that answers the first [n] requests with a redirect to the
    next page, after which the client raises [e]. *)
Definition redirects_then_raises (n : nat) (e : exn) : nat → string → reply :=
  λ i u,
    if (i <? n)%nat
    then Responds (httpx.mkResponse u 301
                     [("Location", Scenario.page (S i)); ("Server", "nginx")])
    else Raises e.




End Cases.

(** ** The exceptions that escape

    [resolve_ip_async] catches [gaierror] and [TypeError] only, and
    [get_server_name_advanced] catches nothing.  The definitions above
    follow the runs in which [urlparse] accepts the URL and the lookup
    returns or raises one of the two; the definitions of this module
    follow every run: [urlparse] may raise for a URL ([ValueError] for a
    URL with an unclosed bracket), the lookup may raise an exception of
    another class ([UnicodeError] for a label that is empty or longer than
    63 characters), and either escapes to the caller. *)

(** A call that returns a value or raises. *)
Inductive outcome (A : Type) : Type :=
| Returns (a : A)
| Raised (e : exn).

Arguments Returns {A} a.
Arguments Raised {A} e.

(** What [socket.gethostbyname] does, in full: one of the outcomes that
    [resolve_ip_async] provides for, or an exception of another class,
    whose [str] is [msg]. *)
Inductive gethostbyname_outcome := Handled (l : lookup) | Other (msg : string).

Module Raising.

Section Raising.

(** [urlparse(url).hostname], which may raise. *)
Variable urlparse_hostname : string → outcome (option string).

(** The name service during the run. *)
Variable dns : string → gethostbyname_outcome.

Definition resolve_ip_async (hostname : option string) (w : World)
  : outcome (option string) * World :=
  match hostname with
  | None => (Returns None, w)
  | Some h =>
      if negb (Py.truthy h) then (Returns None, w)
      else
        match ip_cache w !! h with
        | Some ip => (Returns (Some ip), w)
        | None =>
            match dns h with
            | Handled (Resolved ip) =>
                (Returns (Some ip), mkWorld (<[h := ip]> (ip_cache w)) (lookups w ++ [h]))
            | Handled Gaierror | Handled Typeerror =>
                (Returns None, mkWorld (ip_cache w) (lookups w ++ [h]))
            | Other msg =>
                (Raised (Exception msg), mkWorld (ip_cache w) (lookups w ++ [h]))
            end
        end
  end.

Definition get_server_name_advanced (headers : list (string * string)) (url : string)
    (w : World) : outcome string * World :=
  let headers := lower_keys headers in
  match urlparse_hostname url with
  | Raised e => (Raised e, w)
  | Returns hostname =>
      if bmw_or_mini hostname && has_key headers "cache-control"
      then (Returns "Apache (AEM)", w)
      else
        let server_value := Py.lower (get_or_empty headers "server") in
        if Py.truthy server_value then
          if Py.contains "akamai" server_value || Py.contains "ghost" server_value
          then (Returns "Akamai", w)
          else if Py.contains "apache" server_value then (Returns "Apache (AEM)", w)
          else (Returns (Py.capitalize server_value), w)
        else
          let server_timing := get_or_empty headers "server-timing" in
          let has_akamai_cache :=
            Py.contains "cdn-cache; desc=HIT" server_timing ||
            Py.contains "cdn-cache; desc=MISS" server_timing in
          let has_akamai_request_id := has_key headers "x-akamai-request-id" in
          let has_dispatcher :=
            has_key headers "x-dispatcher" || has_key headers "x-aem-instance" in
          let has_aem_paths :=
            existsb (λ hv, bool_decide (hv.1 ∈ ["link"; "baqend-tags"]) &&
                           Py.contains "/etc.clientlibs" hv.2)
                    (map_to_list headers) in
          match resolve_ip_async hostname w with
          | (Raised e, w) => (Raised e, w)
          | (Returns ip, w) =>
              let is_akamai := is_akamai_ip ip in
              if has_akamai_cache || has_akamai_request_id ||
                 (Py.truthy server_timing && is_akamai)
              then
                if has_aem_paths || has_dispatcher
                then (Returns "Apache (AEM)", w) else (Returns "Akamai", w)
              else if has_dispatcher || has_aem_paths then (Returns "Apache (AEM)", w)
              else if is_akamai then (Returns "Akamai", w)
              else (Returns "Unknown", w)
          end
  end.

End Raising.

End Raising.

(** A name service that raises nothing but [gaierror] and [TypeError], and
    a [urlparse] that accepts every URL. *)
Definition handled (dns : resolver) : string → gethostbyname_outcome :=
  λ h, Handled (dns h).

Definition accepted (urlparse_hostname : string → option string)
  : string → outcome (option string) :=
  λ url, Returns (urlparse_hostname url).

Module Escapes.

(** [urlparse] as in [Scenario], but for a URL with an unclosed bracket,
    for which it raises. *)
Definition hostname (url : string) : outcome (option string) :=
  if Py.contains "[" url && negb (Py.contains "]" url)
  then Raised (Exception "Invalid IPv6 URL")
  else Returns (Scenario.hostname url).

(** A name service that cannot encode the host name. *)
Definition idna_fails : string → gethostbyname_outcome :=
  λ _, Other "encoding with 'idna' codec failed (UnicodeError: label empty or too long)".

(** A name service that knows no host. *)
Definition no_dns : string → gethostbyname_outcome := handled Scenario.no_dns.

End Escapes.


(** * Properties *)

(** ** Strings *)

Lemma truthy_true (s : string) : Py.truthy s = true ↔ s ≠ EmptyString.
Proof. destruct s; simpl; split; congruence. Qed.

Lemma string_app_cons (c : ascii) (s t : string) :
  String c s +:+ t = String c (s +:+ t).
Proof. reflexivity. Qed.

Lemma string_app_nil_l (s : string) : EmptyString +:+ s = s.
Proof. reflexivity. Qed.

Lemma string_app_nil_r (s : string) : s +:+ EmptyString = s.
Proof. induction s as [|c s IH]; [done|]. by rewrite string_app_cons, IH. Qed.

Lemma string_app_snoc (s t : string) (c : ascii) :
  (s +:+ String c EmptyString) +:+ t = s +:+ String c t.
Proof. induction s as [|d s IH]; [done|]. by rewrite !string_app_cons, IH. Qed.

Lemma lower_char_idemp c : Py.lower_char (Py.lower_char c) = Py.lower_char c.
Proof. destruct c as [[] [] [] [] [] [] [] []]; reflexivity. Qed.

Lemma lower_idemp s : Py.lower (Py.lower s) = Py.lower s.
Proof. induction s as [|c s IH]; simpl; [done|]. by rewrite lower_char_idemp, IH. Qed.

Lemma lower_truthy s : Py.truthy (Py.lower s) = Py.truthy s.
Proof. by destruct s. Qed.

(** ** Headers *)

Lemma lower_keys_None_from (hs : list (string * string)) : ∀ (acc : gmap string string) k,
  fold_left (λ acc kv, <[Py.lower kv.1 := kv.2]> acc) hs acc !! k = None ↔
  acc !! k = None ∧ Forall (λ kv, Py.lower kv.1 ≠ k) hs.
Proof.
  induction hs as [|kv hs IH]; intros acc k; simpl.
  - split; [intros H; split; [done | constructor] | by intros [H _]].
  - rewrite IH, lookup_insert_None, Forall_cons. tauto.
Qed.

(** A name is absent from the lower-cased headers exactly when no item has
    it, in whatever case. *)
Lemma lower_keys_None (hs : list (string * string)) k :
  lower_keys hs !! k = None ↔ Forall (λ kv, Py.lower kv.1 ≠ k) hs.
Proof.
  unfold lower_keys. rewrite lower_keys_None_from, lookup_empty. tauto.
Qed.

Lemma lower_keys_Some_from (hs : list (string * string)) : ∀ (acc : gmap string string) k v,
  fold_left (λ acc kv, <[Py.lower kv.1 := kv.2]> acc) hs acc !! k = Some v →
  acc !! k = Some v ∨ ∃ k', (k', v) ∈ hs ∧ Py.lower k' = k.
Proof.
  induction hs as [|[k0 v0] hs IH]; intros acc k v; simpl; [auto|].
  intros [H | (k' & Hin & Hk)]%IH.
  - apply lookup_insert_Some in H as [[<- <-] | [_ H]]; [|auto].
    right. exists k0. split; [left|done].
  - right. exists k'. split; [by right|done].
Qed.

(** A value found under a lower-cased name is the value of an item with
    that name. *)
Lemma lower_keys_Some (hs : list (string * string)) k v :
  lower_keys hs !! k = Some v → ∃ k', (k', v) ∈ hs ∧ Py.lower k' = k.
Proof.
  intros [H | H]%lower_keys_Some_from; [|done].
  by rewrite lookup_empty in H.
Qed.

(** ** The walker *)

Section WalkerFacts.

Context (urlparse_hostname : string → option string)
        (urljoin : string → string → string)
        (dns : resolver)
        (net : nat → string → reply).

Abbreviation classify := (get_server_name_advanced urlparse_hostname dns).
Abbreviation loop := (hops urlparse_hostname urljoin dns net).
Abbreviation path := (redirected urlparse_hostname urljoin dns net).
Abbreviation walk := (check_url_status urlparse_hostname urljoin dns net).
Abbreviation body := (try_body urlparse_hostname urljoin dns net).

(** The computed path is a path. *)
Lemma follow_redirected k : ∀ url w0 u chain w,
  follow urlparse_hostname urljoin dns net k url w0 = Some (u, chain, w) →
  path url w0 k u chain w.
Proof.
  induction k as [|k IH]; intros url w0 u chain w; simpl.
  - intros [= <- <- <-]. constructor.
  - destruct (follow _ _ _ _ k url w0) as [[[u' chain'] w']|] eqn:Hk; [|done].
    destruct (net k u') as [r|] eqn:Hnet; [|done].
    destruct (location r) as [target|] eqn:Hloc; [|done].
    destruct (httpx.is_redirect r) eqn:Hred; [|done].
    destruct (Py.truthy target) eqn:Ht; [|done].
    destruct (String.eqb (urljoin (httpx.url r) target) u') eqn:Hself; [done|].
    simpl. intros [= <- <- <-].
    eapply redirected_S; eauto.
    + by apply truthy_true.
    + by apply String.eqb_neq.
Qed.

(** One hop is recorded per response. *)
Lemma redirected_length url w0 k u chain w :
  path url w0 k u chain w → length chain = k.
Proof.
  induction 1 as [|k u chain w r target _ IH]; [done|].
  rewrite length_app; simpl. lia.
Qed.

(** Along a path the loop only moves on. *)
Lemma hops_redirected url w0 k u chain w :
  path url w0 k u chain w →
  ∀ m, loop (k + m) 0 url [] w0 = loop m k u chain w.
Proof.
  induction 1 as [|k u chain w r target _ IH Hnet Hred Hloc Ht Hself]; intros m; [done|].
  replace (S k + m) with (k + S m) by lia.
  rewrite IH. simpl. rewrite Hnet.
  destruct (get_server_name_advanced _ _ _ _ w) as [label w'] eqn:Hc; simpl.
  rewrite Hred, Hloc.
  apply truthy_true in Ht as ->.
  apply String.eqb_neq in Hself as ->.
  done.
Qed.

(** A response that is no redirect ends the loop, after its hop is
    recorded. *)
Lemma hops_final url w0 k u chain w r :
  k < MAX_REDIRECTS →
  path url w0 k u chain w →
  net k u = Responds r →
  httpx.is_redirect r = false →
  loop MAX_REDIRECTS 0 url [] w0 =
    (raise_for_status r,
     chain ++ [Hop.mk (httpx.url r) (httpx.status_code r)
                 (classify (httpx.headers r) (httpx.url r) w).1],
     (classify (httpx.headers r) (httpx.url r) w).2).
Proof.
  intros Hk Hpath Hnet Hred.
  replace MAX_REDIRECTS with (k + S (MAX_REDIRECTS - S k)) by lia.
  rewrite (hops_redirected _ _ _ _ _ _ Hpath). simpl. rewrite Hnet.
  destruct (get_server_name_advanced _ _ _ _ w) as [label w'] eqn:Hc; simpl.
  by rewrite Hred.
Qed.

Lemma success_not_redirect r : httpx.is_success r = true → httpx.is_redirect r = false.
Proof. unfold httpx.is_success, httpx.is_redirect. lia. Qed.


(** The loop records at most one hop per round. *)
Lemma hops_chain_length : ∀ n i current_url chain w,
  (length (loop n i current_url chain w).1.2 ≤ length chain + n)%nat.
Proof.
  induction n as [|n IH]; intros i current_url chain w; simpl; [lia|].
  destruct (net i current_url) as [r|e]; simpl; [|lia].
  destruct (get_server_name_advanced _ _ _ _ w) as [label w'].
  assert (Hl : length (chain ++ [Hop.mk (httpx.url r) (httpx.status_code r) label])
               = S (length chain)) by (rewrite length_app; simpl; lia).
  destruct (httpx.is_redirect r); simpl; [|lia].
  destruct (location r) as [target|]; simpl; [|lia].
  destruct (Py.truthy target); simpl; [|lia].
  destruct (String.eqb _ _); simpl; [lia|].
  etrans; [apply IH|]. lia.
Qed.

(** The bound that holds for every returned chain: the fifteen hops of the
    loop and the entry the handler adds. *)
Lemma redirectChain_length_le_16 url w0 :
  (length (UrlResult.redirectChain (walk url w0).1) ≤ 16)%nat.
Proof.
  pose proof (hops_chain_length MAX_REDIRECTS 0 url [] w0) as Hlen.
  unfold check_url_status, try_body.
  destruct (loop MAX_REDIRECTS 0 url [] w0) as [[raised chain] w].
  simpl in Hlen. unfold MAX_REDIRECTS in *.
  destruct raised as [e|].
  - destruct e; simpl; rewrite ?length_app; simpl; lia.
  - destruct (15 <=? length chain)%nat; simpl; lia.
Qed.



(** What the walker makes of a last response outside 2xx and 3xx: the hop
    is in the chain twice, once as recorded by the loop and once more, with
    the server name ["N/A"], as added by the handler. *)
Lemma http_error_recorded_twice url w0 (n : nat) u chain w r :
  (1 ≤ n ≤ MAX_REDIRECTS)%nat →
  path url w0 (n - 1) u chain w →
  net (n - 1) u = Responds r →
  httpx.is_redirect r = false →
  httpx.is_success r = false →
  let res := (walk url w0).1 in
  UrlResult.comment res = "HTTP Error: " +:+ pretty (httpx.status_code r) ∧
  UrlResult.redirectChain res =
    chain ++ [Hop.mk (httpx.url r) (httpx.status_code r)
                (classify (httpx.headers r) (httpx.url r) w).1;
              Hop.mk (httpx.url r) (httpx.status_code r) "N/A"].
Proof.
  intros Hn Hpath Hnet Hred Hok res.
  assert (Hloop := hops_final url w0 (n - 1) u chain w r ltac:(lia) Hpath Hnet Hred).
  subst res. unfold check_url_status, try_body. rewrite Hloop.
  unfold raise_for_status. rewrite Hok. simpl.
  by rewrite <- app_assoc.
Qed.

(** Fifteen redirects in a row: the loop ends and the length test raises. *)
Lemma fifteen_redirects_are_too_many url w0 u chain w :
  path url w0 MAX_REDIRECTS u chain w →
  body url w0 = (Some (Exception "Too many redirects"), chain, w) ∧
  length chain = MAX_REDIRECTS.
Proof.
  intros Hpath.
  pose proof (redirected_length _ _ _ _ _ _ Hpath) as Hlen.
  unfold try_body.
  replace MAX_REDIRECTS with (MAX_REDIRECTS + 0) at 1 by lia.
  rewrite (hops_redirected _ _ _ _ _ _ Hpath). simpl.
  by rewrite Hlen.
Qed.

(** An exception of a class the handler does not name, raised by the first
    request: its text is the comment. *)
Lemma unnamed_exception_comment url w0 msg :
  net 0 url = Raises (Exception msg) →
  walk url w0 = (UrlResult.mk url ErrorText msg "N/A" [], w0).
Proof.
  intros Hnet. unfold check_url_status, try_body. simpl. by rewrite Hnet.
Qed.

End WalkerFacts.

(** The loop sends no sixteenth request: it looks at the server's answers
    to the requests numbered below [i + n] only. *)
Lemma hops_first_answers_only uh uj dns net net' :
  ∀ n i current_url chain w,
    (∀ j u, j < i + n → net j u = net' j u) →
    hops uh uj dns net n i current_url chain w =
    hops uh uj dns net' n i current_url chain w.
Proof.
  induction n as [|n IH]; intros i current_url chain w Hsame; [done|].
  simpl. rewrite <- (Hsame i current_url) by lia.
  destruct (net i current_url) as [r|e]; [|done].
  destruct (get_server_name_advanced _ _ _ _ w) as [label w'].
  destruct (httpx.is_redirect r); [|done].
  destruct (location r) as [target|]; [|done].
  destruct (Py.truthy target); [|done].
  destruct (String.eqb _ _); [done|].
  apply IH. intros j v Hj. apply Hsame. lia.
Qed.

(** *** The walker on concrete servers *)



(** C2, the code at the failing input: fourteen redirects, then a 404 as
    the fifteenth response.  The returned chain has sixteen entries. *)
Lemma chain_of_sixteen_entries :
  length (UrlResult.redirectChain
            (Scenario.walk (Scenario.redirects_then 14 404) (Scenario.page 0))) = 16 ∧
  UrlResult.comment (Scenario.walk (Scenario.redirects_then 14 404) (Scenario.page 0))
    = "HTTP Error: 404".
Proof. vm_compute. split; reflexivity. Qed.

(** C3, the code at the failing input: a 404 as the first response.  The
    failing hop is in the chain twice. *)
Lemma failing_hop_is_recorded_twice :
  Scenario.walk (Scenario.redirects_then 0 404) (Scenario.page 0) =
    UrlResult.mk (Scenario.page 0) (Code 404) "HTTP Error: 404" "Nginx"
      [Hop.mk (Scenario.page 0) 404 "Nginx"; Hop.mk (Scenario.page 0) 404 "N/A"].
Proof. vm_compute. reflexivity. Qed.


(** C8, the code at the failing input: the first request raises an
    exception of a class the handler does not name.  The comment is the
    text of that exception. *)
Lemma unnamed_exception_text_is_the_comment :
  Scenario.walk Scenario.invalid_url Scenario.tab_url =
    UrlResult.mk Scenario.tab_url ErrorText
      "Invalid non-printable ASCII character in URL" "N/A" [] ∧
  UrlResult.comment (Scenario.walk Scenario.invalid_url Scenario.tab_url)
    ≠ "An unexpected error occurred".
Proof. vm_compute. split; [reflexivity | discriminate]. Qed.

(** ** The classifier *)

Section ClassifierFacts.

Context (urlparse_hostname : string → option string).

Abbreviation label_of := (get_server_name_advanced urlparse_hostname).

(** C5, amended: with a [Server] header that is present and not empty, and
    the BMW/MINI override not applying, the label is ["Akamai"] when the
    lower-cased value contains ["akamai"] or ["ghost"], ["Apache (AEM)"]
    when it contains ["apache"], and otherwise the lower-cased value with
    its first character capitalized: the other characters are lower-cased,
    not kept as received.  The world is left as it is. *)
Theorem server_header_label dns headers url w (v : string) :
  lower_keys headers !! "server" = Some v →
  v ≠ EmptyString →
  bmw_or_mini (urlparse_hostname url) && has_key (lower_keys headers) "cache-control" = false →
  label_of dns headers url w =
    (if Py.contains "akamai" (Py.lower v) || Py.contains "ghost" (Py.lower v) then "Akamai"
     else if Py.contains "apache" (Py.lower v) then "Apache (AEM)"
     else Py.capitalize (Py.lower v), w) ∧
  ∀ c rest, v = String c rest →
    Py.capitalize (Py.lower v) = String (Py.upper_char (Py.lower_char c)) (Py.lower rest).
Proof.
  intros Hv Hne Hover. split.
  - unfold get_server_name_advanced. rewrite Hover.
    unfold get_or_empty. rewrite Hv. simpl.
    rewrite lower_truthy. apply truthy_true in Hne as ->.
    by repeat case_match.
  - intros c rest ->. simpl. by rewrite lower_idemp.
Qed.

(** The address found for a host depends on the name service only when the
    host is not in the cache. *)
Lemma resolve_same dns1 dns2 hostname w1 w2 :
  ip_cache w1 = ip_cache w2 →
  (∀ h, hostname = Some h → ip_cache w1 !! h = None → dns1 h = dns2 h) →
  (resolve_ip_async dns1 hostname w1).1 = (resolve_ip_async dns2 hostname w2).1.
Proof.
  intros Hc Hdns. unfold resolve_ip_async.
  destruct hostname as [h|]; [|done].
  destruct (Py.truthy h); [|done]. simpl.
  rewrite <- Hc.
  destruct (ip_cache w1 !! h) as [ip|] eqn:Hh; [done|].
  rewrite <- (Hdns h eq_refl Hh).
  by destruct (dns1 h).
Qed.

(** The runs in which [urlparse] accepts the URL and the lookup raises
    nothing but [gaierror] and [TypeError]: the label is ["Apache (AEM)"],
    ["Akamai"], ["Unknown"] or the capitalized [Server] value, and two runs
    with identical headers, URL and cache state return the identical label
    provided that, when the host of the URL is not in the cache, the name
    service gives both runs the same answer for it.  The runs in which an
    exception escapes are in [classifier_label_or_escape] below. *)
Theorem classifier_total_deterministic dns1 dns2 headers url w1 w2 :
  ip_cache w1 = ip_cache w2 →
  (∀ h, urlparse_hostname url = Some h → ip_cache w1 !! h = None → dns1 h = dns2 h) →
  (label_of dns1 headers url w1).1 = (label_of dns2 headers url w2).1 ∧
  ((label_of dns1 headers url w1).1 = "Apache (AEM)" ∨
   (label_of dns1 headers url w1).1 = "Akamai" ∨
   (label_of dns1 headers url w1).1 = "Unknown" ∨
   (label_of dns1 headers url w1).1
     = Py.capitalize (Py.lower (get_or_empty (lower_keys headers) "server"))).
Proof.
  intros Hc Hdns.
  pose proof (resolve_same dns1 dns2 (urlparse_hostname url) w1 w2 Hc Hdns) as Hip.
  unfold get_server_name_advanced.
  destruct (resolve_ip_async dns1 _ w1) as [ip1 w1'].
  destruct (resolve_ip_async dns2 _ w2) as [ip2 w2'].
  simpl in Hip. subst ip2.
  repeat case_match; simpl; auto.
Qed.

(** X13: when the override or the [Server] header decides, neither the
    cache nor the name service is consulted: the label is the same under
    any two name services and worlds, and the world is left as it is. *)
Lemma classifier_without_resolver dns1 dns2 headers url w1 w2 :
  bmw_or_mini (urlparse_hostname url) && has_key (lower_keys headers) "cache-control" = true ∨
  get_or_empty (lower_keys headers) "server" ≠ EmptyString →
  (label_of dns1 headers url w1).1 = (label_of dns2 headers url w2).1 ∧
  (label_of dns1 headers url w1).2 = w1.
Proof.
  intros H. unfold get_server_name_advanced.
  destruct (bmw_or_mini _ && _); [done|].
  destruct H as [|H]; [done|].
  rewrite lower_truthy. apply truthy_true in H as ->.
  by repeat case_match.
Qed.

(** Without any signal the label is ["Unknown"]. *)
Lemma classifier_fallback dns url w :
  (label_of dns [] url w).1 = "Unknown" ∨ (label_of dns [] url w).1 = "Akamai".
Proof.
  unfold get_server_name_advanced.
  destruct (resolve_ip_async dns _ w) as [ip w'].
  replace (lower_keys []) with (∅ : gmap string string) by done.
  unfold has_key, get_or_empty. rewrite !lookup_empty.
  rewrite map_to_list_empty. simpl.
  rewrite andb_false_r. simpl.
  destruct (is_akamai_ip ip); auto.
Qed.

End ClassifierFacts.

(** C5, witness: [Server: nginx] on a host that is neither BMW nor MINI. *)
Lemma server_header_label_witness :
  get_server_name_advanced Scenario.hostname Scenario.no_dns
    [("Server", "nginx")] (Scenario.page 0) Scenario.empty_world
  = ("Nginx", Scenario.empty_world).
Proof.
  refine (proj1 (server_header_label Scenario.hostname Scenario.no_dns
                   [("Server", "nginx")] (Scenario.page 0) Scenario.empty_world
                   "nginx" _ _ _)).
  - vm_compute. reflexivity.
  - discriminate.
  - vm_compute. reflexivity.
Defined.

(** C5, counterexample: [Server: ECS].  The claim gives the value with its
    first character capitalized and the others as received, ["ECS"]; the
    label is ["Ecs"]. *)
Lemma server_value_is_lower_cased :
  lower_keys [("Server", "ECS")] !! "server" = Some "ECS" ∧
  bmw_or_mini (Scenario.hostname (Scenario.page 0)) = false ∧
  first_capitalized_rest_kept "ECS" = "ECS" ∧
  (get_server_name_advanced Scenario.hostname Scenario.no_dns
     [("Server", "ECS")] (Scenario.page 0) Scenario.empty_world).1 = "Ecs" ∧
  (get_server_name_advanced Scenario.hostname Scenario.no_dns
     [("Server", "ECS")] (Scenario.page 0) Scenario.empty_world).1
    ≠ first_capitalized_rest_kept "ECS".
Proof.
  split_and!; try (vm_compute; reflexivity).
  vm_compute. discriminate.
Qed.

(** The host is in the cache, and the two name services disagree about
    it. *)
Lemma classifier_total_deterministic_witness :
  (get_server_name_advanced Scenario.hostname Scenario.no_dns [] (Scenario.page 0)
     (mkWorld {[ "example.test" := "184.24.5.1" ]} [])).1
  = (get_server_name_advanced Scenario.hostname (λ _, Resolved "192.0.2.1") []
       (Scenario.page 0) (mkWorld {[ "example.test" := "184.24.5.1" ]} [])).1.
Proof.
  refine (proj1 (classifier_total_deterministic Scenario.hostname
                   Scenario.no_dns (λ _, Resolved "192.0.2.1") [] (Scenario.page 0)
                   (mkWorld {[ "example.test" := "184.24.5.1" ]} [])
                   (mkWorld {[ "example.test" := "184.24.5.1" ]} []) _ _)).
  - reflexivity.
  - intros h Hh Hc. vm_compute in Hh. injection Hh as <-.
    vm_compute in Hc. discriminate Hc.
Defined.


(** ** The IP oracle *)

(** The lookups that fail with [gaierror] or [TypeError]: an empty host
    name, and a host that is not in the cache and whose lookup fails so,
    yield [None]; the cache is left as it is, so the absent outcome is not
    remembered: for a host name that is not empty the lookup was made once,
    and the next [resolve_ip_async] of the same host makes it again.  The
    lookups that raise another exception are in [resolve_absent_or_escapes]
    below. *)
Theorem resolve_absent_is_not_cached dns dns' hostname w :
  hostname = None ∨ hostname = Some EmptyString ∨
  (∃ h, hostname = Some h ∧ ip_cache w !! h = None ∧
        (dns h = Gaierror ∨ dns h = Typeerror)) →
  (resolve_ip_async dns hostname w).1 = None ∧
  ip_cache (resolve_ip_async dns hostname w).2 = ip_cache w ∧
  ∀ h, hostname = Some h → h ≠ EmptyString →
    lookups (resolve_ip_async dns hostname w).2 = lookups w ++ [h] ∧
    lookups (resolve_ip_async dns' hostname (resolve_ip_async dns hostname w).2).2
      = lookups w ++ [h] ++ [h].
Proof.
  intros [-> | [-> | (h & -> & Hc & Hdns)]].
  - split_and!; [done | done | intros h [=]].
  - split_and!; [done | done | intros h [= <-] Hne; done].
  - unfold resolve_ip_async.
    destruct (Py.truthy h) eqn:Ht; simpl.
    + rewrite Hc.
      assert (∀ l, (l = Gaierror ∨ l = Typeerror) →
                match l with
                | Resolved ip => (Some ip, mkWorld (<[h:=ip]> (ip_cache w)) (lookups w ++ [h]))
                | _ => (None, mkWorld (ip_cache w) (lookups w ++ [h]))
                end = (None : option string, mkWorld (ip_cache w) (lookups w ++ [h])))
        as Hfail by (by intros l [-> | ->]).
      rewrite (Hfail _ Hdns). simpl.
      split_and!; [done | done |].
      intros h' [= <-] _. split; [done|].
      rewrite Hc. destruct (dns' h); simpl; by rewrite <- app_assoc.
    + split_and!; [done | done |].
      intros h' [= <-] Hne. apply truthy_true in Hne. congruence.
Qed.

(** X10: a found address is remembered: the next call answers from the
    cache and makes no lookup, whatever the name service would say. *)
Lemma resolve_found_is_cached dns dns' h ip w :
  h ≠ EmptyString →
  ip_cache w !! h = None →
  dns h = Resolved ip →
  (resolve_ip_async dns (Some h) w).1 = Some ip ∧
  resolve_ip_async dns' (Some h) (resolve_ip_async dns (Some h) w).2
    = (Some ip, (resolve_ip_async dns (Some h) w).2).
Proof.
  intros Hne Hc Hdns. unfold resolve_ip_async.
  apply truthy_true in Hne as ->. simpl.
  rewrite Hc, Hdns. simpl. by rewrite lookup_insert_eq.
Qed.

(** A host the name service does not know. *)
Lemma resolve_absent_is_not_cached_witness :
  (resolve_ip_async Scenario.no_dns (Some "nowhere.test") Scenario.empty_world).1 = None ∧
  ip_cache (resolve_ip_async Scenario.no_dns (Some "nowhere.test") Scenario.empty_world).2
    = ∅.
Proof.
  pose proof (resolve_absent_is_not_cached Scenario.no_dns Scenario.no_dns
                (Some "nowhere.test") Scenario.empty_world) as H.
  destruct H as (Hnone & Hcache & _).
  - right; right. exists "nowhere.test". split_and!; [reflexivity | reflexivity | by left].
  - split; [exact Hnone | exact Hcache].
Defined.


(** ** The batch endpoint *)

Lemma splitlines_from_text s : ∀ line,
  forallb (λ c, negb (Py.is_linebreak c)) (String.list_ascii_of_string s) = true →
  Py.splitlines_from line s =
    if Py.truthy (line +:+ s) then [line +:+ s] else [].
Proof.
  induction s as [|c s IH]; intros line Hs; simpl.
  - by rewrite string_app_nil_r.
  - simpl in Hs. apply andb_true_iff in Hs as [Hc Hs].
    apply negb_true_iff in Hc. rewrite Hc, IH by done.
    by rewrite string_app_snoc.
Qed.

Lemma splitlines_from_line s : ∀ line rest,
  forallb (λ c, negb (Py.is_linebreak c)) (String.list_ascii_of_string s) = true →
  Py.splitlines_from line (s +:+ String Py.LF rest) =
    (line +:+ s) :: Py.splitlines_from EmptyString rest.
Proof.
  induction s as [|c s IH]; intros line rest Hs.
  - rewrite string_app_nil_r, string_app_nil_l. by destruct rest.
  - rewrite string_app_cons. simpl. simpl in Hs.
    apply andb_true_iff in Hs as [Hc Hs].
    apply negb_true_iff in Hc. rewrite Hc, IH by done.
    by rewrite string_app_snoc.
Qed.

(** Entries written one per line are the lines of the message. *)
Lemma splitlines_join (urls : list string) :
  Forall (λ u, plain u = true) urls →
  Py.splitlines (Py.join (String Py.LF EmptyString) urls) = urls.
Proof.
  unfold Py.splitlines.
  induction 1 as [|u urls Hu _ IH]; [done|].
  apply andb_true_iff in Hu as [Hne Hu].
  destruct urls as [|u' urls].
  - simpl. rewrite splitlines_from_text by done.
    rewrite string_app_nil_l. by rewrite Hne.
  - change (Py.join (String Py.LF EmptyString) (u :: u' :: urls))
      with (u +:+ String Py.LF (Py.join (String Py.LF EmptyString) (u' :: urls))).
    rewrite splitlines_from_line by done. rewrite string_app_nil_l. by rewrite IH.
Qed.

Lemma fromkeys_length (l : list string) : ∀ seen,
  (length (fold_left (λ seen k, if bool_decide (k ∈ seen) then seen else seen ++ [k]) l seen)
   ≤ length seen + length l)%nat.
Proof.
  induction l as [|k l IH]; intros seen; simpl; [lia|].
  case_bool_decide.
  - specialize (IH seen). lia.
  - specialize (IH (seen ++ [k])). rewrite length_app in IH. simpl in IH. lia.
Qed.

(** Trimming, dropping and deduplicating never add an entry. *)
Lemma cleaned_urls_length (urls : list string) :
  (length (cleaned_urls urls) ≤ length urls)%nat.
Proof.
  unfold cleaned_urls, Py.fromkeys.
  etrans; [apply fromkeys_length|]. simpl.
  etrans; [apply List.filter_length_le|]. by rewrite length_map.
Qed.

(** C4, amended: every task of a batch sleeps before its walk if and only
    if the number of lines of the message, counted before trimming,
    dropping of empty lines and deduplication, exceeds 50.  A deduplicated
    count above 50 implies it; a message of 60 entries written one per line
    is throttled and a message of 10 is not. *)
Theorem throttle_follows_line_count (data : string) :
  (∀ t, t ∈ tasks data → sleeps t = should_throttle data) ∧
  (should_throttle data = true ↔ (50 < length (Py.splitlines data))%nat) ∧
  length (tasks data) = length (cleaned_urls (Py.splitlines data)) ∧
  ((50 < length (cleaned_urls (Py.splitlines data)))%nat → should_throttle data = true) ∧
  (∀ urls, Forall (λ u, plain u = true) urls →
     data = Py.join (String Py.LF EmptyString) urls →
     (length urls = 60 → should_throttle data = true) ∧
     (length urls = 10 → should_throttle data = false)).
Proof.
  split_and!.
  - intros t Ht. unfold tasks in Ht. by apply list_elem_of_fmap in Ht as (u & -> & _).
  - unfold should_throttle. apply Nat.ltb_lt.
  - unfold tasks. by rewrite length_map.
  - intros H. unfold should_throttle. apply Nat.ltb_lt.
    pose proof (cleaned_urls_length (Py.splitlines data)). lia.
  - intros urls Hplain ->. unfold should_throttle. rewrite splitlines_join by done.
    split; intros ->; done.
Qed.

(** C4, counterexample: a message of 51 lines that all hold the entry [a].
    The deduplicated count is 1, and the one task sleeps. *)
Lemma duplicate_lines_are_throttled :
  cleaned_urls (Py.splitlines (Scenario.lines 51 "a")) = ["a"] ∧
  should_throttle (Scenario.lines 51 "a") = true ∧
  tasks (Scenario.lines 51 "a") = [mkTask "https://a" true] ∧
  ¬ (should_throttle (Scenario.lines 51 "a") = true ↔
     (50 < length (cleaned_urls (Py.splitlines (Scenario.lines 51 "a"))))%nat).
Proof.
  split_and!; try (vm_compute; reflexivity).
  intros [H _].
  assert (Hc : cleaned_urls (Py.splitlines (Scenario.lines 51 "a")) = ["a"])
    by (vm_compute; reflexivity).
  rewrite Hc in H. simpl in H.
  specialize (H ltac:(vm_compute; reflexivity)). lia.
Qed.

(** Sixty and ten distinct entries, one per line. *)
Lemma sixty_throttled_ten_not :
  should_throttle (Py.join (String Py.LF EmptyString) (Scenario.distinct 60)) = true ∧
  should_throttle (Py.join (String Py.LF EmptyString) (Scenario.distinct 10)) = false ∧
  length (tasks (Py.join (String Py.LF EmptyString) (Scenario.distinct 60))) = 60.
Proof. split_and!; vm_compute; reflexivity. Qed.

Lemma lstrip_blank s : blank s = true → Py.lstrip s = EmptyString.
Proof.
  unfold blank. induction s as [|c s IH]; simpl; [done|].
  intros [Hc Hs]%andb_true_iff. rewrite Hc. auto.
Qed.

Lemma strip_blank s : blank s = true → Py.strip s = EmptyString.
Proof. intros H. unfold Py.strip. by rewrite lstrip_blank. Qed.

Lemma cleaned_urls_blank (urls : list string) :
  Forall (λ line, blank line = true) urls → cleaned_urls urls = [].
Proof.
  intros H. unfold cleaned_urls.
  assert (List.filter Py.truthy (map Py.strip urls) = []) as ->; [|done].
  induction H as [|line urls Hline _ IH]; simpl; [done|].
  by rewrite (strip_blank _ Hline).
Qed.

(** C10: for a message whose lines are all empty or white space only, the
    endpoint creates no task and sends no result; what it sends is the
    [done] marker alone (sent when the socket is connected at that
    moment). *)
Theorem blank_message_only_done pick result_of connected (data : string) :
  Forall (λ line, blank line = true) (Py.splitlines data) →
  tasks data = [] ∧
  (∀ r, Result r ∉ websocket_endpoint pick result_of connected data) ∧
  websocket_endpoint pick result_of connected data
    = (if connected 0 then [Done] else []).
Proof.
  intros H.
  assert (Ht : tasks data = [])
    by (unfold tasks; by rewrite (cleaned_urls_blank _ H)).
  assert (Hs : websocket_endpoint pick result_of connected data
               = if connected 0 then [Done] else [])
    by (unfold websocket_endpoint; by rewrite Ht).
  split_and!; [done | | done].
  intros r. rewrite Hs. destruct (connected 0).
  - intros Hin. apply list_elem_of_singleton in Hin. discriminate Hin.
  - apply not_elem_of_nil.
Qed.

(** C10, witness: three lines of spaces and tabs, on a connected socket. *)
Lemma blank_message_only_done_witness :
  websocket_endpoint (λ _, 0)
    (λ _ t, Scenario.walk (Scenario.redirects_then 0 200) (task_url t))
    (λ _, true)
    ("  " +:+ String Py.LF (String "009"%char (String Py.LF "   ")))
  = [Done].
Proof.
  refine (proj2 (proj2 (blank_message_only_done (λ _, 0)
            (λ _ t, Scenario.walk (Scenario.redirects_then 0 200) (task_url t))
            (λ _, true)
            ("  " +:+ String Py.LF (String "009"%char (String Py.LF "   "))) _))).
  vm_compute. repeat constructor.
Defined.


(** * Further properties of the code *)

(** ** The walker: invariants of every walk *)



Lemma nothing_added (chain : list Hop.t) :
  ∃ front tail, chain = chain ++ front ++ tail ∧
                Forall redirect_hop front ∧ (length tail ≤ 1)%nat.
Proof.
  exists [], []. split_and!; [simpl; by rewrite app_nil_r | constructor | simpl; lia].
Qed.

Section WalkerInvariants.

Context (urlparse_hostname : string → option string)
        (urljoin : string → string → string)
        (dns : resolver)
        (net : nat → string → reply).

Abbreviation classify := (get_server_name_advanced urlparse_hostname dns).
Abbreviation loop := (hops urlparse_hostname urljoin dns net).
Abbreviation path := (redirected urlparse_hostname urljoin dns net).
Abbreviation walk := (check_url_status urlparse_hostname urljoin dns net).
Abbreviation body := (try_body urlparse_hostname urljoin dns net).





(** The chain only grows during the loop. *)
Lemma hops_chain_prefix : ∀ n i current_url chain w,
  chain `prefix_of` (loop n i current_url chain w).1.2.
Proof.
  induction n as [|n IH]; intros i current_url chain w; simpl; [done|].
  destruct (net i current_url) as [r|e]; simpl; [|done].
  destruct (get_server_name_advanced _ _ _ _ w) as [label w'].
  assert (Hp : chain `prefix_of` chain ++ [Hop.mk (httpx.url r) (httpx.status_code r) label])
    by apply prefix_app_r, reflexivity.
  destruct (httpx.is_redirect r); simpl; [|done].
  destruct (location r) as [target|]; simpl; [|done].
  destruct (Py.truthy target); simpl; [|done].
  destruct (String.eqb _ _); simpl; [done|].
  etrans; [exact Hp | apply IH].
Qed.

(** A loop that ends without an exception has recorded a hop. *)
Lemma hops_quiet_nonempty n i current_url chain w :
  (loop (S n) i current_url chain w).1.1 = None →
  (loop (S n) i current_url chain w).1.2 ≠ [].
Proof.
  simpl.
  destruct (net i current_url) as [r|e]; simpl; [|done].
  destruct (get_server_name_advanced _ _ _ _ w) as [label w'].
  assert (Hne : ∀ l, (chain ++ [Hop.mk (httpx.url r) (httpx.status_code r) label])
                       `prefix_of` l → l ≠ []).
  { intros l [k ->] H. by destruct chain. }
  destruct (httpx.is_redirect r); simpl; [|intros _; by apply Hne].
  destruct (location r) as [target|]; simpl; [|done].
  destruct (Py.truthy target); simpl; [|done].
  destruct (String.eqb _ _); simpl; [done|].
  intros _. apply Hne, hops_chain_prefix.
Qed.

(** X7: the status of a result is never [None].  Either no hop was
    recorded, the walk failed and the result carries the sentinels
    ["Error"] and ["N/A"], or the status and the server name are those of
    the first hop of the chain. *)
Theorem result_reports_first_hop url w0 :
  let res := (walk url w0).1 in
  (UrlResult.redirectChain res = [] ∧ (body url w0).1.1 ≠ None ∧
   UrlResult.status res = ErrorText ∧ UrlResult.serverName res = "N/A") ∨
  (∃ first, head (UrlResult.redirectChain res) = Some first ∧
            UrlResult.status res = Code (Hop.status first) ∧
            UrlResult.serverName res = Hop.serverName first).
Proof.
  pose proof (hops_quiet_nonempty 14 0 url [] w0) as Hq.
  unfold check_url_status, try_body.
  change MAX_REDIRECTS with 15.
  destruct (loop 15 0 url [] w0) as [[raised chain] w]. simpl in Hq.
  destruct raised as [e|].
  - simpl. destruct e as [msg|r|msg|msg]; simpl;
      try (destruct chain as [|h chain]; [left; done | right; by exists h]).
    right. destruct chain as [|h chain]; simpl; eauto.
  - specialize (Hq eq_refl).
    destruct (15 <=? length chain)%nat; simpl;
      (destruct chain as [|h chain]; [done | right; by exists h]).
Qed.

(** X6: the chain of a result has at most fifteen entries, or sixteen when
    the [try] raised an HTTP status error. *)
Theorem chain_length_by_outcome url w0 :
  (length (UrlResult.redirectChain (walk url w0).1) ≤
   match (body url w0).1.1 with
   | Some (HTTPStatusError _) => 16
   | _ => 15
   end)%nat.
Proof.
  pose proof (hops_chain_length urlparse_hostname urljoin dns net
                MAX_REDIRECTS 0 url [] w0) as Hlen.
  unfold check_url_status, try_body.
  destruct (loop MAX_REDIRECTS 0 url [] w0) as [[raised chain] w].
  simpl in Hlen. unfold MAX_REDIRECTS in *.
  destruct raised as [e|].
  - simpl. destruct e; simpl; rewrite ?length_app; simpl; lia.
  - destruct (15 <=? length chain)%nat; simpl; lia.
Qed.

(** The hops the loop adds are redirects, but for the last one. *)
Lemma hops_redirects_first : ∀ n i current_url chain w,
  ∃ front tail,
    (loop n i current_url chain w).1.2 = chain ++ front ++ tail ∧
    Forall redirect_hop front ∧ (length tail ≤ 1)%nat.
Proof.
  induction n as [|n IH]; intros i current_url chain w; simpl.
  { apply nothing_added. }
  destruct (net i current_url) as [r|e]; simpl.
  2:{ apply nothing_added. }
  destruct (get_server_name_advanced _ _ _ _ w) as [label w'].
  set (hop := Hop.mk (httpx.url r) (httpx.status_code r) label).
  assert (Hlast : ∃ front tail, chain ++ [hop] = chain ++ front ++ tail ∧
            Forall redirect_hop front ∧ (length tail ≤ 1)%nat)
    by (exists [], [hop]; split_and!; [done | constructor | simpl; lia]).
  destruct (httpx.is_redirect r) eqn:Hred; simpl; [|done].
  destruct (location r) as [target|]; simpl; [|done].
  destruct (Py.truthy target); simpl; [|done].
  destruct (String.eqb _ _); simpl; [done|].
  destruct (IH (S i) (urljoin (httpx.url r) target) (chain ++ [hop]) w')
    as (front & tail & -> & Hf & Ht).
  exists (hop :: front), tail. rewrite <- !app_assoc. split_and!; [done | | done].
  constructor; [|done]. unfold redirect_hop, httpx.is_redirect in *. simpl. lia.
Qed.

(** X8: in the chain of a result every hop is a redirect, but for the last
    one; when the [try] raised an HTTP status error, but for the last two. *)
Theorem chain_redirects_first url w0 :
  ∃ front tail,
    UrlResult.redirectChain (walk url w0).1 = front ++ tail ∧
    Forall redirect_hop front ∧
    (length tail ≤ match (body url w0).1.1 with
                   | Some (HTTPStatusError _) => 2
                   | _ => 1
                   end)%nat.
Proof.
  destruct (hops_redirects_first MAX_REDIRECTS 0 url [] w0)
    as (front & tail & Hchain & Hf & Ht).
  unfold check_url_status, try_body.
  destruct (loop MAX_REDIRECTS 0 url [] w0) as [[raised chain] w].
  simpl in Hchain. subst chain.
  destruct raised as [e|].
  - simpl. destruct e as [msg|r|msg|msg]; simpl; try (by exists front, tail).
    exists front, (tail ++ [Hop.mk (httpx.url r) (httpx.status_code r) "N/A"]).
    rewrite app_assoc. split_and!; [done | done |]. rewrite length_app. simpl. lia.
  - destruct (MAX_REDIRECTS <=? length (front ++ tail))%nat; simpl; by exists front, tail.
Qed.

End WalkerInvariants.

(** ** The walker: how a walk ends *)

Section WalkerEndings.

Context (urlparse_hostname : string → option string)
        (urljoin : string → string → string)
        (dns : resolver)
        (net : nat → string → reply).

Abbreviation classify := (get_server_name_advanced urlparse_hostname dns).
Abbreviation loop := (hops urlparse_hostname urljoin dns net).
Abbreviation path := (redirected urlparse_hostname urljoin dns net).
Abbreviation walk := (check_url_status urlparse_hostname urljoin dns net).
Abbreviation body := (try_body urlparse_hostname urljoin dns net).

(** The loop, brought to the request a path leads to. *)
Lemma hops_at url w0 (n : nat) u chain w :
  (1 ≤ n ≤ MAX_REDIRECTS)%nat →
  path url w0 (n - 1) u chain w →
  loop MAX_REDIRECTS 0 url [] w0 = loop (S (MAX_REDIRECTS - n)) (n - 1) u chain w.
Proof.
  intros Hn Hpath.
  rewrite <- (hops_redirected _ _ _ _ _ _ _ _ _ _ Hpath). f_equal. lia.
Qed.

(** The hops of a path are redirects. *)
Lemma redirected_hops url w0 k u chain w :
  path url w0 k u chain w → Forall redirect_hop chain.
Proof.
  induction 1 as [|k u chain w r target _ IH Hnet Hred]; [constructor|].
  apply Forall_app. split; [done|]. constructor; [|constructor].
  unfold redirect_hop, httpx.is_redirect in *. simpl. lia.
Qed.



(** X3: when a request raises a timeout or another request error, the
    result has the comment of that class, the chain holds the hops recorded
    before and no entry for the failed request, the world is as it was
    before the request, and the status is the sentinel ["Error"] exactly
    when the failing request was the first. *)
Theorem transport_failure_result url w0 (n : nat) u chain w e :
  (1 ≤ n ≤ MAX_REDIRECTS)%nat →
  path url w0 (n - 1) u chain w →
  net (n - 1) u = Raises e →
  (∃ msg, e = TimeoutException msg ∨ e = RequestError msg) →
  UrlResult.comment (walk url w0).1 =
    match e with
    | TimeoutException _ => "Request timed out after 60s"
    | _ => "Request failed (Network/DNS error)"
    end ∧
  UrlResult.redirectChain (walk url w0).1 = chain ∧
  length chain = (n - 1)%nat ∧
  (walk url w0).2 = w ∧
  (UrlResult.status (walk url w0).1 = ErrorText ↔ n = 1%nat).
Proof.
  intros Hn Hpath Hnet (msg & He).
  pose proof (redirected_length _ _ _ _ _ _ _ _ _ _ Hpath) as Hlen.
  unfold check_url_status, try_body. rewrite (hops_at _ _ _ _ _ _ Hn Hpath).
  simpl. rewrite Hnet.
  destruct He as [-> | ->]; simpl; (split_and!; [done | done | done | done |]);
    (destruct chain as [|h chain]; simpl in *; split; [lia | done | done | lia]).
Qed.

(** X4: fifteen followed redirects in a row end the walk with the comment
    ["Too many redirects"]; the chain holds exactly those fifteen hops, all
    redirects. *)
Theorem fifteen_redirects_result url w0 u chain w :
  path url w0 MAX_REDIRECTS u chain w →
  UrlResult.comment (walk url w0).1 = "Too many redirects" ∧
  UrlResult.redirectChain (walk url w0).1 = chain ∧
  length chain = MAX_REDIRECTS ∧
  Forall redirect_hop chain ∧
  (walk url w0).2 = w.
Proof.
  intros Hpath.
  pose proof (redirected_length _ _ _ _ _ _ _ _ _ _ Hpath) as Hlen.
  pose proof (redirected_hops _ _ _ _ _ _ Hpath) as Hall.
  destruct (fifteen_redirects_are_too_many _ _ _ _ _ _ _ _ _ Hpath) as [Hbody _].
  unfold check_url_status. rewrite Hbody. by simpl.
Qed.

(** X5: the result of a walk depends on the answers to its first fifteen
    requests only: no sixteenth request is made. *)
Theorem walk_first_fifteen_answers_only (net' : nat → string → reply) url w0 :
  (∀ j u, j < MAX_REDIRECTS → net j u = net' j u) →
  walk url w0 = check_url_status urlparse_hostname urljoin dns net' url w0.
Proof.
  intros Hsame. unfold check_url_status, try_body.
  by rewrite (hops_first_answers_only _ _ _ net net' MAX_REDIRECTS 0 url [] w0).
Qed.

End WalkerEndings.



(** X3, witness: one redirect, then a timeout on the second request. *)
Lemma transport_failure_result_witness :
  UrlResult.comment
    (Scenario.walk (Cases.redirects_then_raises 1 (TimeoutException "read timeout"))
       (Scenario.page 0))
    = "Request timed out after 60s".
Proof.
  refine (proj1 (transport_failure_result
                   Scenario.hostname Scenario.absolute Scenario.no_dns
                   (Cases.redirects_then_raises 1 (TimeoutException "read timeout"))
                   (Scenario.page 0) Scenario.empty_world 2 (Scenario.page 1)
                   [Hop.mk (Scenario.page 0) 301 "Nginx"] Scenario.empty_world
                   (TimeoutException "read timeout") _ _ _ _)).
  - unfold MAX_REDIRECTS. lia.
  - apply follow_redirected. vm_compute. reflexivity.
  - reflexivity.
  - exists "read timeout". by left.
Defined.

(** X4, witness: a server that always redirects to the next page. *)
Lemma fifteen_redirects_result_witness :
  UrlResult.comment (Scenario.walk (Scenario.redirects_then 15 200) (Scenario.page 0))
    = "Too many redirects".
Proof.
  refine (proj1 (fifteen_redirects_result
                   Scenario.hostname Scenario.absolute Scenario.no_dns
                   (Scenario.redirects_then 15 200)
                   (Scenario.page 0) Scenario.empty_world (Scenario.page 15)
                   (map (λ i, Hop.mk (Scenario.page i) 301 "Nginx") (seq 0 15))
                   Scenario.empty_world _)).
  apply follow_redirected. vm_compute. reflexivity.
Defined.

(** X5, witness: two servers that differ from the sixteenth answer on. *)
Lemma walk_first_fifteen_answers_only_witness :
  check_url_status Scenario.hostname Scenario.absolute Scenario.no_dns
    (Scenario.redirects_then 15 200) (Scenario.page 0) Scenario.empty_world
  = check_url_status Scenario.hostname Scenario.absolute Scenario.no_dns
      (Scenario.redirects_then 15 404) (Scenario.page 0) Scenario.empty_world.
Proof.
  apply walk_first_fifteen_answers_only.
  intros j u Hj. unfold Scenario.redirects_then, MAX_REDIRECTS in *.
  destruct (Nat.ltb_spec j 15) as [_ | Hge]; [reflexivity | lia].
Defined.

(** ** The classifier: names, signals *)

Lemma lower_keys_same_from (hs1 hs2 : list (string * string)) :
  Forall2 (λ a b, Py.lower a.1 = Py.lower b.1 ∧ a.2 = b.2) hs1 hs2 →
  ∀ acc : gmap string string,
    fold_left (λ acc kv, <[Py.lower kv.1 := kv.2]> acc) hs1 acc =
    fold_left (λ acc kv, <[Py.lower kv.1 := kv.2]> acc) hs2 acc.
Proof.
  induction 1 as [|a b hs1 hs2 [Hk Hv] _ IH]; intros acc; simpl; [done|].
  by rewrite Hk, Hv, IH.
Qed.


Section ClassifierSignals.

Context (urlparse_hostname : string → option string).

Abbreviation label_of := (get_server_name_advanced urlparse_hostname).

(** X11: header names are matched without regard to case: two header lists
    whose items agree up to the case of the names get the same label and
    leave the same world. *)
Theorem header_names_ignore_case dns hs1 hs2 url w :
  Forall2 (λ a b, Py.lower a.1 = Py.lower b.1 ∧ a.2 = b.2) hs1 hs2 →
  label_of dns hs1 url w = label_of dns hs2 url w.
Proof.
  intros H. unfold get_server_name_advanced, lower_keys.
  by rewrite (lower_keys_same_from _ _ H).
Qed.


End ClassifierSignals.

(** X11, witness: [SERVER] and [server]. *)
Lemma header_names_ignore_case_witness :
  get_server_name_advanced Scenario.hostname Scenario.no_dns
    [("SERVER", "nginx")] (Scenario.page 0) Scenario.empty_world
  = get_server_name_advanced Scenario.hostname Scenario.no_dns
      [("server", "nginx")] (Scenario.page 0) Scenario.empty_world.
Proof.
  apply header_names_ignore_case.
  repeat constructor.
Defined.


(** X13, witness: [Server: cloudflare]. *)
Lemma classifier_without_resolver_witness :
  (get_server_name_advanced Scenario.hostname Scenario.no_dns
     [("Server", "cloudflare")] (Scenario.page 0) Scenario.empty_world).2
  = Scenario.empty_world.
Proof.
  refine (proj2 (classifier_without_resolver Scenario.hostname
            Scenario.no_dns Scenario.no_dns
            [("Server", "cloudflare")] (Scenario.page 0)
            Scenario.empty_world Scenario.empty_world _)).
  right. vm_compute. discriminate.
Defined.

(** X10, witness: a host found once, then asked for again while the name
    service is down. *)
Lemma resolve_found_is_cached_witness :
  resolve_ip_async Scenario.no_dns (Some "example.test")
    (resolve_ip_async (λ _, Resolved "184.24.5.1") (Some "example.test")
       Scenario.empty_world).2
  = (Some "184.24.5.1",
     (resolve_ip_async (λ _, Resolved "184.24.5.1") (Some "example.test")
        Scenario.empty_world).2).
Proof.
  refine (proj2 (resolve_found_is_cached (λ _, Resolved "184.24.5.1") Scenario.no_dns
            "example.test" "184.24.5.1" Scenario.empty_world _ _ _)).
  - discriminate.
  - reflexivity.
  - reflexivity.
Defined.

(** ** Akamai addresses *)

Lemma split_from_last sep s : ∀ part,
  free_of sep s = true → Py.split_from sep part s = [part +:+ s].
Proof.
  unfold free_of. induction s as [|c s IH]; intros part Hs; simpl.
  - by rewrite string_app_nil_r.
  - simpl in Hs. apply andb_true_iff in Hs as [Hc Hs].
    apply negb_true_iff in Hc. rewrite Hc, IH by done.
    by rewrite string_app_snoc.
Qed.

Lemma split_from_part sep s : ∀ part rest,
  free_of sep s = true →
  Py.split_from sep part (s +:+ String sep rest) =
    (part +:+ s) :: Py.split_from sep EmptyString rest.
Proof.
  unfold free_of. induction s as [|c s IH]; intros part rest Hs.
  - rewrite string_app_nil_r, string_app_nil_l. simpl. by rewrite Ascii.eqb_refl.
  - rewrite string_app_cons. simpl. simpl in Hs.
    apply andb_true_iff in Hs as [Hc Hs].
    apply negb_true_iff in Hc. rewrite Hc, IH by done.
    by rewrite string_app_snoc.
Qed.

Lemma octets_ok : forallb octet_ok (map Z.of_nat (seq 0 256)) = true.
Proof. vm_compute. reflexivity. Qed.

(** An octet written in decimal is read back, and holds no dot. *)
Lemma octet_read_back (n : Z) :
  (0 ≤ n ≤ 255)%Z →
  ipaddress.parse_octet (pretty n) = Some n ∧ free_of "." (pretty n) = true.
Proof.
  intros Hn.
  pose proof (proj1 (forallb_forall _ _) octets_ok n) as H.
  assert (Hin : In n (map Z.of_nat (seq 0 256))).
  { apply in_map_iff. exists (Z.to_nat n). split; [lia|]. apply in_seq. lia. }
  specialize (H Hin). apply andb_true_iff in H as [H1 H2].
  by apply bool_decide_eq_true in H1.
Qed.

(** A dotted quad is read as its 32-bit number. *)
Lemma ipv4_address_dotted (a b c d : Z) :
  (0 ≤ a ≤ 255)%Z → (0 ≤ b ≤ 255)%Z → (0 ≤ c ≤ 255)%Z → (0 ≤ d ≤ 255)%Z →
  ipaddress.ipv4_address (dotted a b c d) = Some (((a * 256 + b) * 256 + c) * 256 + d)%Z.
Proof.
  intros Ha Hb Hc Hd.
  destruct (octet_read_back a Ha) as [Pa Fa], (octet_read_back b Hb) as [Pb Fb],
    (octet_read_back c Hc) as [Pc Fc], (octet_read_back d Hd) as [Pd Fd].
  unfold ipaddress.ipv4_address, dotted, Py.split.
  change (pretty a +:+ "." +:+ pretty b +:+ "." +:+ pretty c +:+ "." +:+ pretty d)
    with (pretty a +:+ String "." (pretty b +:+ String "." (pretty c +:+ String "." (pretty d)))).
  rewrite !split_from_part, split_from_last by done.
  rewrite !string_app_nil_l.
  rewrite Pa, Pb, Pc, Pd. reflexivity.
Qed.

Lemma int_of_digits_nonneg (s : string) : (0 ≤ Py.int_of_digits s)%Z.
Proof.
  unfold Py.int_of_digits.
  assert (H : ∀ l acc, (0 ≤ acc)%Z →
            (0 ≤ fold_left (λ acc c, acc * 10 + Z.of_nat (Py.ord c - 48)) l acc)%Z).
  { induction l as [|c l IH]; intros acc Hacc; simpl; [done|]. apply IH. lia. }
  by apply H.
Qed.

Lemma parse_octet_bounds s n :
  ipaddress.parse_octet s = Some n → (0 ≤ n ≤ 255)%Z.
Proof.
  unfold ipaddress.parse_octet. intros H.
  repeat case_match; try done.
  injection H as <-. pose proof (int_of_digits_nonneg s). lia.
Qed.

(** An address that is read is a 32-bit number. *)
Lemma ipv4_address_bounds s addr :
  ipaddress.ipv4_address s = Some addr → (0 ≤ addr < 2 ^ 32)%Z.
Proof.
  unfold ipaddress.ipv4_address. intros H.
  destruct (Py.split "." s) as [|a [|b [|c [|d [|? ?]]]]]; try done.
  destruct (ipaddress.parse_octet a) as [na|] eqn:Ea; [|done].
  destruct (ipaddress.parse_octet b) as [nb|] eqn:Eb; [|done].
  destruct (ipaddress.parse_octet c) as [nc|] eqn:Ec; [|done].
  destruct (ipaddress.parse_octet d) as [nd|] eqn:Ed; [|done].
  simpl in H. injection H as <-.
  apply parse_octet_bounds in Ea, Eb, Ec, Ed.
  change (2 ^ 32)%Z with 4294967296%Z. lia.
Qed.

(** Membership in a network is membership in its range of numbers. *)
Lemma in_network_range (addr net len : Z) :
  (0 ≤ len ≤ 32)%Z → (0 ≤ addr)%Z → (0 ≤ net)%Z →
  (net mod 2 ^ (32 - len) = 0)%Z →
  ipaddress.in_network addr (net, len) = true ↔
  (net ≤ addr < net + 2 ^ (32 - len))%Z.
Proof.
  intros Hlen Ha Hn Hmod. unfold ipaddress.in_network. simpl.
  rewrite Z.eqb_eq, !Z.shiftr_div_pow2 by lia.
  assert (0 < 2 ^ (32 - len))%Z by (apply Z.pow_pos_nonneg; lia).
  set (p := (2 ^ (32 - len))%Z) in *.
  pose proof (Z.div_mod net p ltac:(lia)) as Hnet. rewrite Hmod in Hnet.
  pose proof (Z.div_mod addr p ltac:(lia)) as Haddr.
  pose proof (Z.mod_pos_bound addr p ltac:(lia)) as Hb.
  split.
  - intros Heq. rewrite Heq in Haddr. lia.
  - intros Hr. symmetry. apply (Z.div_unique addr p (net / p) (addr - net)); lia.
Qed.

(** The answer is [true] exactly for the texts that are read as a number of
    23.192.0.0/11, 104.64.0.0/10 or 184.24.0.0/13; a text that is not read
    as an address gets [false]. *)
Lemma akamai_ranges (ip : string) :
  is_akamai_ip (Some ip) = true ↔
  ∃ addr, ipaddress.ipv4_address ip = Some addr ∧
    ((23 * 2^24 + 192 * 2^16 ≤ addr < 23 * 2^24 + 224 * 2^16) ∨
     (104 * 2^24 + 64 * 2^16 ≤ addr < 104 * 2^24 + 128 * 2^16) ∨
     (184 * 2^24 + 24 * 2^16 ≤ addr < 184 * 2^24 + 32 * 2^16))%Z.
Proof.
  assert (N1 : ipaddress.ip_network "23.192.0.0/11" = Some (23 * 2^24 + 192 * 2^16, 11)%Z)
    by (vm_compute; reflexivity).
  assert (N2 : ipaddress.ip_network "104.64.0.0/10" = Some (104 * 2^24 + 64 * 2^16, 10)%Z)
    by (vm_compute; reflexivity).
  assert (N3 : ipaddress.ip_network "184.24.0.0/13" = Some (184 * 2^24 + 24 * 2^16, 13)%Z)
    by (vm_compute; reflexivity).
  unfold is_akamai_ip, AKAMAI_IP_RANGES.
  destruct (Py.truthy ip) eqn:Ht; simpl negb; cbv iota.
  2:{ destruct ip; [|done]. split; [done|]. intros (addr & H & _). vm_compute in H. done. }
  destruct (ipaddress.ipv4_address ip) as [addr|] eqn:Hip.
  2:{ split; [done|]. by intros (addr & H & _). }
  pose proof (ipv4_address_bounds _ _ Hip) as Hb.
  cbn [existsb]. rewrite N1, N2, N3, orb_false_r, !orb_true_iff.
  rewrite !in_network_range by (try done; lia).
  change (2 ^ (32 - 11))%Z with (32 * 2 ^ 16)%Z.
  change (2 ^ (32 - 10))%Z with (64 * 2 ^ 16)%Z.
  change (2 ^ (32 - 13))%Z with (8 * 2 ^ 16)%Z.
  split.
  - intros H. exists addr. split; [done|]. lia.
  - intros (addr' & [= <-] & H). lia.
Qed.

(** X14: on a dotted quad the answer is decided by the first two octets:
    [true] exactly for 23 with 192..223, 104 with 64..127 and 184 with
    24..31. *)
Theorem is_akamai_ip_dotted (a b c d : Z) :
  (0 ≤ a ≤ 255)%Z → (0 ≤ b ≤ 255)%Z → (0 ≤ c ≤ 255)%Z → (0 ≤ d ≤ 255)%Z →
  is_akamai_ip (Some (dotted a b c d)) = true ↔
  (a = 23 ∧ 192 ≤ b ≤ 223)%Z ∨ (a = 104 ∧ 64 ≤ b ≤ 127)%Z ∨ (a = 184 ∧ 24 ≤ b ≤ 31)%Z.
Proof.
  intros Ha Hb Hc Hd.
  rewrite akamai_ranges, (ipv4_address_dotted a b c d) by done.
  change (2 ^ 24)%Z with 16777216%Z. change (2 ^ 16)%Z with 65536%Z.
  split.
  - intros (addr & [= <-] & H). lia.
  - intros H. eexists. split; [done|]. lia.
Qed.

(** X14, witness: 184.24.5.1, in 184.24.0.0/13. *)
Lemma is_akamai_ip_dotted_witness : is_akamai_ip (Some "184.24.5.1") = true.
Proof.
  refine (proj2 (is_akamai_ip_dotted 184 24 5 1 _ _ _ _) _); try lia.
Defined.

(** ** The batch endpoint: entries, schemes, messages *)

Lemma fromkeys_from (l : list string) : ∀ seen,
  NoDup seen →
  NoDup (fold_left (λ seen k, if bool_decide (k ∈ seen) then seen else seen ++ [k]) l seen) ∧
  ∀ x, x ∈ fold_left (λ seen k, if bool_decide (k ∈ seen) then seen else seen ++ [k]) l seen
       ↔ x ∈ seen ∨ x ∈ l.
Proof.
  induction l as [|k l IH]; intros seen Hnd; simpl.
  - split; [done|]. intros x. rewrite elem_of_nil. tauto.
  - case_bool_decide as Hk.
    + destruct (IH seen Hnd) as [H1 H2]. split; [done|].
      intros x. rewrite H2, elem_of_cons. split; [tauto|]. intros [?|[->|?]]; auto.
    + assert (Hnd' : NoDup (seen ++ [k])).
      { apply NoDup_app. split_and!; [done | | apply NoDup_singleton].
        intros x Hx Hx'. apply list_elem_of_singleton in Hx' as ->. done. }
      destruct (IH _ Hnd') as [H1 H2]. split; [done|].
      intros x. rewrite H2, elem_of_app, list_elem_of_singleton, elem_of_cons. tauto.
Qed.

(** A list without duplicates is its own list of keys. *)
Lemma fromkeys_NoDup_from (l : list string) : ∀ seen,
  NoDup (seen ++ l) →
  fold_left (λ seen k, if bool_decide (k ∈ seen) then seen else seen ++ [k]) l seen
  = seen ++ l.
Proof.
  induction l as [|k l IH]; intros seen Hnd; simpl; [by rewrite app_nil_r|].
  apply NoDup_app in Hnd as Hparts. destruct Hparts as (_ & Hdisj & _).
  rewrite bool_decide_eq_false_2.
  - rewrite IH; rewrite <- app_assoc; done.
  - intros Hk. apply (Hdisj k Hk). left.
Qed.

(** X15: the entries walked are the distinct texts that remain after
    trimming the lines and dropping the empty ones: no entry occurs twice,
    none is empty, and a text is an entry exactly when it is the trimmed
    form of some line. *)
Theorem cleaned_urls_distinct (urls : list string) :
  NoDup (cleaned_urls urls) ∧
  ∀ u, u ∈ cleaned_urls urls ↔ u ≠ EmptyString ∧ ∃ line, line ∈ urls ∧ Py.strip line = u.
Proof.
  unfold cleaned_urls, Py.fromkeys.
  destruct (fromkeys_from (List.filter Py.truthy (map Py.strip urls)) [] NoDup_nil_2)
    as [Hnd Hin].
  split; [done|]. intros u. rewrite Hin, elem_of_nil.
  rewrite list_elem_of_In, filter_In, <- list_elem_of_In, list_elem_of_fmap, truthy_true.
  split.
  - intros [[] | [(line & -> & Hl) Hne]]. split; [done|]. by exists line.
  - intros [Hne (line & Hl & <-)]. right. split; [by exists line | done].
Qed.

(** Entries that are already trimmed, not empty and distinct are kept as
    they are, in their order. *)
Lemma cleaned_urls_clean (urls : list string) :
  NoDup urls →
  Forall (λ u, Py.strip u = u ∧ u ≠ EmptyString) urls →
  cleaned_urls urls = urls.
Proof.
  intros Hnd Hclean. unfold cleaned_urls, Py.fromkeys.
  assert (List.filter Py.truthy (map Py.strip urls) = urls) as ->.
  { clear Hnd. induction Hclean as [|u urls [Hs Hne] _ IH]; simpl; [done|].
    rewrite Hs. apply truthy_true in Hne as ->. by rewrite IH. }
  by rewrite (fromkeys_NoDup_from urls []).
Qed.

Lemma startswith_https (u : string) : Py.startswith "https://" ("https://" +:+ u) = true.
Proof. destruct u; vm_compute; reflexivity. Qed.

(** X16: every URL handed to a walk starts with [http://] or [https://]:
    an entry that starts with one of them is kept as it is, every other
    entry gets [https://] in front, and normalizing twice changes nothing
    more. *)
Theorem with_scheme_normalizes (url : string) :
  (Py.startswith "http://" (with_scheme url) || Py.startswith "https://" (with_scheme url)) = true ∧
  with_scheme (with_scheme url) = with_scheme url ∧
  (with_scheme url = url ∨ with_scheme url = "https://" +:+ url) ∧
  (Py.startswith "http://" url || Py.startswith "https://" url = true →
   with_scheme url = url) ∧
  (Py.startswith "http://" url || Py.startswith "https://" url = false →
   with_scheme url = "https://" +:+ url).
Proof.
  unfold with_scheme.
  destruct (Py.startswith "http://" url || Py.startswith "https://" url) eqn:Hs;
    cbn [negb].
  - rewrite Hs. cbn [negb]. split_and!; auto. intros [=].
  - rewrite startswith_https, orb_true_r. cbn [negb]. split_and!; auto. intros [=].
Qed.

(** An entry with a scheme is walked as it is, also when it holds a second
    scheme further on; an entry without one gets [https://], once. *)
Lemma with_scheme_examples :
  with_scheme "http://a.test" = "http://a.test" ∧
  with_scheme "https://a.test" = "https://a.test" ∧
  with_scheme "a.test" = "https://a.test" ∧
  with_scheme "HTTP://a.test" = "https://HTTP://a.test" ∧
  with_scheme "ftp://a.test" = "https://ftp://a.test".
Proof. split_and!; vm_compute; reflexivity. Qed.

Lemma clean_plain u :
  clean u = true → plain u = true ∧ Py.strip u = u ∧ u ≠ EmptyString.
Proof.
  unfold clean. intros [Hp Hs]%andb_true_iff. apply bool_decide_eq_true in Hs.
  split_and!; [done | done |].
  unfold plain in Hp. apply andb_true_iff in Hp as [Hp _]. by apply truthy_true.
Qed.

(** The tasks of a message of distinct clean entries, one per line. *)
Lemma tasks_clean (urls : list string) :
  NoDup urls →
  Forall (λ u, clean u = true) urls →
  tasks (Py.join (String Py.LF EmptyString) urls)
  = map (λ u, mkTask (with_scheme u) (50 <? length urls)%nat) urls.
Proof.
  intros Hnd Hclean. unfold tasks, should_throttle.
  rewrite splitlines_join
    by (eapply Forall_impl; [exact Hclean | intros u Hu; by apply clean_plain in Hu as [? _]]).
  rewrite cleaned_urls_clean; [done | done |].
  eapply Forall_impl; [exact Hclean|]. intros u Hu. by apply clean_plain in Hu as (_ & ? & ?).
Qed.

(** X17: a message of distinct clean entries, one per line, gives one task
    per entry, in the order of the lines, each with the scheme added where
    it is missing, and all with the throttle of the number of entries. *)
Theorem tasks_of_clean_message (urls : list string) :
  NoDup urls →
  Forall (λ u, clean u = true) urls →
  tasks (Py.join (String Py.LF EmptyString) urls)
  = map (λ u, mkTask (with_scheme u) (50 <? length urls)%nat) urls ∧
  length (tasks (Py.join (String Py.LF EmptyString) urls)) = length urls.
Proof.
  intros Hnd Hclean. rewrite (tasks_clean urls Hnd Hclean).
  split; [done | by rewrite length_map].
Qed.

Lemma no_scheme_differs (u : string) : u ≠ "https://" +:+ u.
Proof.
  intros H. apply (f_equal String.length) in H.
  change ("https://" +:+ u)
    with (String "h" (String "t" (String "t" (String "p" (String "s"
           (String ":" (String "/" (String "/" u)))))))) in H.
  simpl in H. lia.
Qed.

(** X18: deduplication comes before the scheme is added: an entry without
    scheme and the same entry written with [https://] are two entries, and
    the batch walks the one URL twice. *)
Theorem same_url_walked_twice (u : string) :
  clean u = true →
  clean ("https://" +:+ u) = true →
  Py.startswith "http://" u || Py.startswith "https://" u = false →
  tasks (Py.join (String Py.LF EmptyString) [u; "https://" +:+ u])
  = [mkTask ("https://" +:+ u) false; mkTask ("https://" +:+ u) false].
Proof.
  intros Hu Hsu Hno.
  rewrite tasks_clean.
  - simpl. unfold with_scheme. rewrite Hno, startswith_https, orb_true_r. done.
  - apply NoDup_cons. split; [|apply NoDup_singleton].
    intros Hin. apply list_elem_of_singleton in Hin. by apply no_scheme_differs in Hin.
  - by repeat constructor.
Qed.

Section EndpointMessages.

Context (pick : nat → nat) (result_of : nat → Task → UrlResult.t) (connected : nat → bool).

(** Completion order is a rearrangement of the tasks. *)
Lemma as_completed_Permutation {A} : ∀ (n : nat) (pending : list A),
  length pending = n → as_completed pick n pending ≡ₚ pending.
Proof.
  induction n as [|n IH]; intros pending Hlen; simpl.
  - by destruct pending.
  - assert (Hi : (pick n mod length pending < length pending)%nat)
      by (apply Nat.mod_upper_bound; lia).
    destruct (lookup_lt_is_Some_2 _ _ Hi) as [t Ht]. rewrite Ht.
    etrans; [|symmetry; apply (delete_Permutation _ _ _ Ht)]. constructor.
    apply IH. rewrite length_delete by eauto. lia.
Qed.


Lemma send_results_sublist (results : list UrlResult.t) : ∀ k,
  send_results connected k results `sublist_of` map Result results.
Proof.
  induction results as [|r rest IH]; intros k; simpl; [done|].
  destruct (connected k); simpl.
  - by apply sublist_skip.
  - by apply sublist_cons.
Qed.


(** X20: whatever the socket does, every result sent is the result of a
    task of the batch, no more messages are sent than there are tasks plus
    one, and the [done] marker, when it is sent, is the last message. *)
Theorem session_messages (data : string) :
  let sent := websocket_endpoint pick result_of connected data in
  (∀ r, Result r ∈ sent → ∃ i t, tasks data !! i = Some t ∧ r = result_of i t) ∧
  (length sent ≤ length (tasks data) + 1)%nat ∧
  (Done ∈ sent → last sent = Some Done).
Proof.
  intros sent. subst sent. unfold websocket_endpoint.
  set (numbered := imap (λ i t, (i, t)) (tasks data)).
  set (order := as_completed pick (length numbered) numbered).
  pose proof (as_completed_Permutation (length numbered) numbered eq_refl) as Hperm.
  fold order in Hperm.
  set (results := map (λ it, result_of it.1 it.2) order).
  pose proof (send_results_sublist results 0) as Hsub.
  assert (Hlen : length results = length (tasks data)).
  { subst results. rewrite length_map, Hperm. subst numbered. by rewrite length_imap. }
  assert (Hnodone : Done ∉ send_results connected 0 results).
  { intros Hin. apply (elem_of_sublist _ _ _ Hin) in Hsub.
    apply list_elem_of_fmap in Hsub as (r & [=] & _). }
  split_and!.
  - intros r Hin. apply elem_of_app in Hin as [Hin | Hin].
    + apply (elem_of_sublist _ _ _ Hin) in Hsub.
      apply list_elem_of_fmap in Hsub as (r' & [= <-] & Hr).
      subst results. apply list_elem_of_fmap in Hr as ([i t] & -> & Hit).
      rewrite Hperm in Hit. subst numbered.
      apply elem_of_lookup_imap in Hit as (j & t' & [= -> ->] & Hj). eauto.
    + destruct (connected (length results)); [|by apply elem_of_nil in Hin].
      apply list_elem_of_singleton in Hin. discriminate Hin.
  - rewrite length_app. apply sublist_length in Hsub. rewrite length_map in Hsub.
    destruct (connected (length results)); simpl; lia.
  - intros Hin. apply elem_of_app in Hin as [Hin | Hin]; [done|].
    destruct (connected (length results)); [|by apply elem_of_nil in Hin].
    by rewrite last_snoc.
Qed.

End EndpointMessages.

(** X17, witness: three distinct hosts, one per line. *)
Lemma tasks_of_clean_message_witness :
  tasks (Py.join (String Py.LF EmptyString) (Scenario.distinct 3))
  = [mkTask "https://host0.test" false; mkTask "https://host1.test" false;
     mkTask "https://host2.test" false].
Proof.
  refine (proj1 (tasks_of_clean_message (Scenario.distinct 3) _ _)).
  - apply (bool_decide_unpack _). vm_compute. exact I.
  - apply (bool_decide_unpack _). vm_compute. exact I.
Defined.

(** X18, witness: [a.test] and [https://a.test]. *)
Lemma same_url_walked_twice_witness :
  tasks (Py.join (String Py.LF EmptyString) ["a.test"; "https://a.test"])
  = [mkTask "https://a.test" false; mkTask "https://a.test" false].
Proof.
  refine (same_url_walked_twice "a.test" _ _ _); vm_compute; reflexivity.
Defined.


(** ** The fifteenth response *)

Section WalkerLimit.

Context (urlparse_hostname : string → option string)
        (urljoin : string → string → string)
        (dns : resolver)
        (net : nat → string → reply).

(** A walk whose fifteenth response is the successful one, after fourteen
    redirects that were followed: the chain holds fifteen hops, the length
    test raises, and the result is the failure ["Too many redirects"]. *)
Lemma fifteenth_success_is_refused url w0 u chain w r :
  redirected urlparse_hostname urljoin dns net url w0 14 u chain w →
  net 14 u = Responds r →
  httpx.is_success r = true →
  UrlResult.comment (check_url_status urlparse_hostname urljoin dns net url w0).1
    = "Too many redirects" ∧
  length (UrlResult.redirectChain
            (check_url_status urlparse_hostname urljoin dns net url w0).1) = 15.
Proof.
  intros Hpath Hnet Hok.
  pose proof (redirected_length _ _ _ _ _ _ _ _ _ _ Hpath) as Hlen.
  pose proof (hops_final urlparse_hostname urljoin dns net url w0 14 u chain w r
                ltac:(unfold MAX_REDIRECTS; lia) Hpath Hnet
                (success_not_redirect r Hok)) as Hloop.
  unfold check_url_status, try_body. rewrite Hloop.
  unfold raise_for_status. rewrite Hok.
  assert (Hfull : (MAX_REDIRECTS <=?
                     length (chain ++ [Hop.mk (httpx.url r) (httpx.status_code r)
                        (get_server_name_advanced urlparse_hostname dns
                           (httpx.headers r) (httpx.url r) w).1]))%nat = true).
  { apply Nat.leb_le. rewrite length_app. simpl. unfold MAX_REDIRECTS. lia. }
  rewrite Hfull. simpl. split; [done|].
  rewrite length_app. simpl. lia.
Qed.

End WalkerLimit.

(** ** The exceptions that escape *)

(** On a name service that raises nothing else, the full [resolve_ip_async]
    is the one above. *)
Lemma resolve_handled dns hostname w :
  Raising.resolve_ip_async (handled dns) hostname w =
    (Returns (resolve_ip_async dns hostname w).1, (resolve_ip_async dns hostname w).2).
Proof.
  unfold Raising.resolve_ip_async, resolve_ip_async, handled.
  destruct hostname as [h|]; [|done].
  destruct (Py.truthy h); [|done]. simpl.
  destruct (ip_cache w !! h); [done|].
  by destruct (dns h).
Qed.

(** On a [urlparse] that accepts every URL and a name service that raises
    nothing else, the full classifier is the one above. *)
Lemma classifier_handled uh dns headers url w :
  Raising.get_server_name_advanced (accepted uh) (handled dns) headers url w =
    (Returns (get_server_name_advanced uh dns headers url w).1,
     (get_server_name_advanced uh dns headers url w).2).
Proof.
  unfold Raising.get_server_name_advanced, get_server_name_advanced, accepted.
  rewrite resolve_handled.
  destruct (resolve_ip_async dns (uh url) w) as [ip w']. simpl.
  by repeat case_match.
Qed.




(** A lookup that raises an exception of another class, as
    [gethostbyname] does for a host name with an empty label: it escapes
    [resolve_ip_async]. *)
Lemma lookup_error_escapes :
  (Raising.resolve_ip_async Escapes.idna_fails (Some "a..b.test") Scenario.empty_world).1
  = Raised (Exception
      "encoding with 'idna' codec failed (UnicodeError: label empty or too long)").
Proof. reflexivity. Qed.

Section RaisingClassifier.

Context (urlparse_hostname : string → outcome (option string)).

Abbreviation classify := (Raising.get_server_name_advanced urlparse_hostname).




End RaisingClassifier.


(** A URL that [urlparse] refuses, and a host name the lookup cannot
    encode: the exception escapes the classifier, whatever the [Server]
    header for the first, and unless the [Server] header decides for the
    second. *)
Lemma classifier_escapes :
  (Raising.get_server_name_advanced Escapes.hostname Escapes.no_dns
     [("Server", "nginx")] "http://[x/" Scenario.empty_world).1
  = Raised (Exception "Invalid IPv6 URL") ∧
  (Raising.get_server_name_advanced Escapes.hostname Escapes.idna_fails
     [] "https://a..b.test/" Scenario.empty_world).1
  = Raised (Exception
      "encoding with 'idna' codec failed (UnicodeError: label empty or too long)") ∧
  (Raising.get_server_name_advanced Escapes.hostname Escapes.idna_fails
     [("Server", "nginx")] "https://a..b.test/" Scenario.empty_world).1
  = Returns "Nginx".
Proof. split_and!; vm_compute; reflexivity. Qed.
